(** * Task CRUD API (cmd/api/main.go): a shallow embedding and its contract

    The handlers of [cmd/api/main.go] are embedded as functions in a small
    state monad over a [World]: the [tasks] table of the sample schema, the
    statements sent to the datastore, and the operational log.  Library
    calls the handlers rely on ([strings.TrimPrefix], [strings.TrimSuffix],
    [strconv.Atoi], the pgx round trips and row streams, the redirect of
    [http.ServeMux] for paths that are not canonical) are embedded after
    their Go definitions; request bodies are represented by the outcome
    of [json.Decoder.Decode].

    Two of the example programs are embedded beside it: the pure
    functions of the syntax refresher ([minMax], [sum]) and the functions
    of the database walk-through, over the [users] and [tasks] tables of
    the same schema. *)

Set Warnings "-register-all".

From Stdlib Require Import ZArith List Bool Lia.
From Stdlib Require Import Ascii String DecimalString DecimalPos DecimalZ.
From Stdlib Require Import Sorting.Sorted Sorting.Permutation Sorting.Mergesort Orders.
Import ListNotations.

Local Open Scope string_scope.
Local Open Scope Z_scope.

(** ** Strings: the [strings] and [strconv] functions used by [extractID] *)

Module GoStrings.

(** [strip p s] is the rest of [s] after its prefix [p], if [p] is one. *)
Fixpoint strip (p s : string) : option string :=
  match p, s with
  | EmptyString, _ => Some s
  | String a p', String b s' => if Ascii.eqb a b then strip p' s' else None
  | String _ _, EmptyString => None
  end.

(** [strings.HasPrefix]. *)
Definition HasPrefix (s prefix : string) : bool :=
  match strip prefix s with Some _ => true | None => false end.

(** [strings.TrimPrefix]: [s] without the leading [prefix]; [s] itself when
    it does not start with [prefix]. *)
Definition TrimPrefix (s prefix : string) : string :=
  match strip prefix s with Some rest => rest | None => s end.

(** [strings.HasSuffix]:
    [len(s) >= len(suffix) && s[len(s)-len(suffix):] == suffix]. *)
Definition HasSuffix (s suffix : string) : bool :=
  let n := String.length s in
  let k := String.length suffix in
  (k <=? n)%nat && String.eqb (substring (n - k) k s) suffix.

(** [strings.TrimSuffix]: [s[:len(s)-len(suffix)]] when [s] ends with
    [suffix], [s] otherwise.  At most one occurrence is removed. *)
Definition TrimSuffix (s suffix : string) : string :=
  if HasSuffix s suffix
  then substring 0 (String.length s - String.length suffix) s
  else s.

(** The platform [int] is 64 bits wide. *)
Definition minInt : Z := - 2 ^ 63.
Definition maxInt : Z := 2 ^ 63 - 1.

Definition fitsInt (n : Z) : bool := (minInt <=? n) && (n <=? maxInt).

(** One decimal digit: [ch -= '0'; if ch > 9 { syntax error }]. *)
Definition digit (ch : ascii) : option Z :=
  let d := Z.of_N (N_of_ascii ch) - 48 in
  if (0 <=? d) && (d <=? 9) then Some d else None.

(** The digit loop of [Atoi]: [n = n*10 + int(ch)]. *)
Fixpoint digits (s : string) (n : Z) : option Z :=
  match s with
  | EmptyString => Some n
  | String ch rest =>
      match digit ch with
      | Some d => digits rest (n * 10 + d)
      | None => None
      end
  end.

(** [strconv.Atoi]: an optional sign, then one or more decimal digits, the
    value within the range of [int].  [None] stands for a non-nil error
    (syntax or range: callers here only test [err != nil]). *)
Definition Atoi (s : string) : option Z :=
  match s with
  | EmptyString => None
  | String c rest =>
      let neg := Ascii.eqb c "-" in
      let body := if neg || Ascii.eqb c "+" then rest else s in
      match body with
      | EmptyString => None
      | _ =>
          match digits body 0 with
          | Some n =>
              let v := if neg then - n else n in
              if fitsInt v then Some v else None
          | None => None
          end
      end
  end.

(** [fmt.Sprintf("%d", n)]. *)
Definition itoa (n : Z) : string := NilZero.string_of_int (Z.to_int n).

End GoStrings.
Import GoStrings.

(** ** Helpers of main.go *)

(** [extractID]: the ID of a URL path like [/tasks/123]. *)
Definition extractID (path prefix : string) : option Z :=
  let idStr := TrimPrefix path prefix in
  let idStr := TrimSuffix idStr "/" in
  Atoi idStr.

(** ** Models *)

Record Task := {
  ID : Z;
  UserID : Z;
  Title : string;
  Done : bool
}.

Record CreateTaskRequest := {
  cr_UserID : Z;
  cr_Title : string
}.

(** [Title *string] and [Done *bool]: a nil pointer is [None], so a missing
    field differs from a present empty or false one. *)
Record UpdateTaskRequest := {
  up_Title : option string;
  up_Done : option bool
}.

Record ErrorResponse := { Error : string }.

(** ** JSON values written by [writeJSON] *)

Inductive JSON :=
| JNull
| JBool (b : bool)
| JNum (n : Z)
| JStr (s : string)
| JArr (items : list JSON)
| JObj (fields : list (string * JSON)).

(** What [json.Encoder.Encode] produces for the values the handlers pass
    to [writeJSON], following the struct tags. *)
Class Marshal (A : Type) := marshal : A -> JSON.

#[export] Instance marshal_Task : Marshal Task := fun t =>
  JObj [("id", JNum (ID t)); ("user_id", JNum (UserID t));
        ("title", JStr (Title t)); ("done", JBool (Done t))].

#[export] Instance marshal_ErrorResponse : Marshal ErrorResponse := fun e =>
  JObj [("error", JStr (Error e))].

(** A slice of tasks: [None] is the nil slice, encoded as [null]; a
    non-nil slice, even an empty one, is encoded as an array. *)
Definition TaskSlice := option (list Task).

#[export] Instance marshal_TaskSlice : Marshal TaskSlice := fun s =>
  match s with
  | None => JNull
  | Some ts => JArr (map marshal ts)
  end.

(** [append(s, t)]. *)
Definition append (s : TaskSlice) (t : Task) : TaskSlice :=
  match s with
  | None => Some [t]
  | Some ts => Some (ts ++ [t])%list
  end.

(** [map[string]string]. *)
#[export] Instance marshal_string_map : Marshal (list (string * string)) :=
  fun m => JObj (map (fun kv => (fst kv, JStr (snd kv))) m).

(** ** Responses *)

Definition StatusOK : Z := 200.
Definition StatusCreated : Z := 201.
Definition StatusNoContent : Z := 204.
Definition StatusTemporaryRedirect : Z := 307.
Definition StatusBadRequest : Z := 400.
Definition StatusNotFound : Z := 404.
Definition StatusMethodNotAllowed : Z := 405.
Definition StatusInternalServerError : Z := 500.

(** [RedirectTo] is what [http.Redirect] writes: the Location header and,
    on a GET, the short HTML body that names it. *)
Inductive Payload :=
| NoBody
| JsonBody (j : JSON)
| TextBody (s : string)
| RedirectTo (location : string).

Record Response := {
  status : Z;
  content_type : option string;
  body : Payload
}.

(** [writeJSON]: sets the content type, writes the status, encodes [data]. *)
Definition writeJSON {A} `{Marshal A} (st : Z) (data : A) : Response :=
  {| status := st;
     content_type := Some "application/json";
     body := JsonBody (marshal data) |}.

(** [writeError]. *)
Definition writeError (st : Z) (msg : string) : Response :=
  writeJSON st {| Error := msg |}.

(** [w.WriteHeader(status)] with nothing written after it. *)
Definition writeHeaderOnly (st : Z) : Response :=
  {| status := st; content_type := None; body := NoBody |}.

(** ** The datastore *)

(** A row of [tasks] as the sample schema declares it: [id] is the primary
    key and [title] is NOT NULL, [user_id] and [done] are nullable. *)
Record Row := {
  r_id : Z;
  r_user_id : option Z;
  r_title : string;
  r_done : option bool
}.

(** The statements main.go sends. *)
Inductive Sql :=
| SelectAll
| InsertTask (user_id : Z) (title : string)
| SelectByID (id : Z)
| UpdateTitle (title : string) (id : Z)
| UpdateDone (done : bool) (id : Z)
| DeleteByID (id : Z).

Inductive DbError :=
| ErrNoRows          (* pgx.ErrNoRows: the query returned no row       *)
| ErrUpstream        (* the round trip failed, or the server refused   *)
| ErrUnique          (* the primary key of [tasks] would be duplicated *)
| ErrScan.           (* a NULL column scanned into a non-pointer       *)

(** [World]: the table with its SERIAL sequence, the outcome of the
    coming round trips ([true]: that round trip fails, whether the
    connection is lost, the context is cancelled or the server rejects
    the statement, be it for a constraint of the schema, and the statement
    has no effect; none left: they succeed), the fate of the row streams
    of the coming queries ([Some k]: the stream breaks off after [k] rows,
    which [rows.Next] reports by returning false and [rows.Err] by the
    error; [None], or none left: the stream is complete), every statement
    sent so far, and the lines written with [log.Printf]. *)
Record World := {
  tasks : list Row;
  tasks_id_seq : Z;
  outage : list bool;
  streams : list (option nat);
  issued : list Sql;
  logged : list (string * DbError)
}.

(** ** A state monad over [World] *)

Definition M (A : Type) : Type := World -> A * World.

Definition ret {A} (a : A) : M A := fun w => (a, w).

Definition bind {A B} (m : M A) (k : A -> M B) : M B :=
  fun w => let (a, w') := m w in k a w'.

Notation "x <- m ;; k" := (bind m (fun x => k))
  (at level 61, m at next level, right associativity).
Notation "m ;;; k" := (bind m (fun _ => k))
  (at level 61, right associativity).

(** [log.Printf(prefix + ": %v", err)]. *)
Definition logPrintf (prefix : string) (e : DbError) : M unit :=
  fun w =>
    (tt, {| tasks := tasks w; tasks_id_seq := tasks_id_seq w;
            outage := outage w; streams := streams w; issued := issued w;
            logged := (logged w ++ [(prefix, e)])%list |}).

(** One round trip to the datastore: the statement is recorded, and the
    answer is whether the round trip failed. *)
Definition roundTrip (q : Sql) : M bool :=
  fun w =>
    (hd false (outage w),
     {| tasks := tasks w; tasks_id_seq := tasks_id_seq w;
        outage := tl (outage w); streams := streams w;
        issued := (issued w ++ [q])%list; logged := logged w |}).

(** The row stream of a query that was sent: its fate is taken. *)
Definition nextStream : M (option nat) :=
  fun w =>
    (hd None (streams w),
     {| tasks := tasks w; tasks_id_seq := tasks_id_seq w;
        outage := outage w; streams := tl (streams w);
        issued := issued w; logged := logged w |}).

Definition getTasks : M (list Row) := fun w => (tasks w, w).

Definition putTasks (rs : list Row) : M unit :=
  fun w =>
    (tt, {| tasks := rs; tasks_id_seq := tasks_id_seq w;
            outage := outage w; streams := streams w; issued := issued w;
            logged := logged w |}).

(** [nextval('tasks_id_seq')]: a value of the sequence is never handed
    out twice. *)
Definition nextval : M Z :=
  fun w =>
    (tasks_id_seq w,
     {| tasks := tasks w; tasks_id_seq := tasks_id_seq w + 1;
        outage := outage w; streams := streams w; issued := issued w;
        logged := logged w |}).

Inductive result (A : Type) :=
| Ok (a : A)
| Err (e : DbError).
Arguments Ok {A} a.
Arguments Err {A} e.

(** [ORDER BY id]. *)
Module RowOrder <: TotalLeBool.
Definition t := Row.
Definition leb (a b : Row) : bool := r_id a <=? r_id b.
Theorem leb_total : forall a b, leb a b = true \/ leb b a = true.
Proof. intros a b. unfold leb. rewrite !Z.leb_le. lia. Qed.
End RowOrder.

Module RowSort := Sort RowOrder.

(** [Scan(&t.ID, &t.UserID, &t.Title, &t.Done)]: a NULL cannot be scanned
    into an [int] or a [bool]. *)
Definition Scan (r : Row) : result Task :=
  match r_user_id r, r_done r with
  | Some u, Some d =>
      Ok {| ID := r_id r; UserID := u; Title := r_title r; Done := d |}
  | _, _ => Err ErrScan
  end.

Definition hasID (id : Z) (r : Row) : bool := r_id r =? id.

Definition rowsAffected (id : Z) (rs : list Row) : Z :=
  Z.of_nat (List.length (filter (hasID id) rs)).

(** The rows of a query: those [rows.Next] delivers before it returns
    false, and what [rows.Err] says then. *)
Record TaskRows := {
  delivered : list Row;
  rowsErr : option DbError
}.

(** [app.DB.Query(ctx, "SELECT id, user_id, title, done FROM tasks ORDER
    BY id")]: [Query] returns an error when the round trip fails; a
    failure of the query after that is left to the rows. *)
Definition querySelectAll : M (result TaskRows) :=
  failed <- roundTrip SelectAll ;;
  if failed : bool then ret (Err ErrUpstream)
  else
    rs <- getTasks ;;
    fate <- nextStream ;;
    match fate with
    | None =>
        ret (Ok {| delivered := RowSort.sort rs; rowsErr := None |})
    | Some k =>
        ret (Ok {| delivered := firstn k (RowSort.sort rs);
                   rowsErr := Some ErrUpstream |})
    end.

(** [SELECT ... FROM tasks WHERE id = $1], then [Scan]. *)
Definition queryRowSelect (id : Z) : M (result Task) :=
  failed <- roundTrip (SelectByID id) ;;
  if failed : bool then ret (Err ErrUpstream)
  else
    rs <- getTasks ;;
    match find (hasID id) rs with
    | Some r => ret (Scan r)
    | None => ret (Err ErrNoRows)
    end.

(** [INSERT INTO tasks (user_id, title) VALUES ($1, $2) RETURNING ...],
    then [Scan]: [id] comes from the sequence and [done] is DEFAULT
    FALSE.  Of the constraints of the schema the primary key is decided
    here; a refusal for another one (the foreign key of [user_id], the
    width of a column) is a round trip that fails. *)
Definition queryRowInsert (user_id : Z) (title : string) : M (result Task) :=
  failed <- roundTrip (InsertTask user_id title) ;;
  if failed : bool then ret (Err ErrUpstream)
  else
    id <- nextval ;;
    rs <- getTasks ;;
    if existsb (hasID id) rs then ret (Err ErrUnique)
    else
      let r := {| r_id := id; r_user_id := Some user_id;
                  r_title := title; r_done := Some false |} in
      putTasks (rs ++ [r])%list ;;; ret (Scan r).

Definition setTitle (title : string) (id : Z) (r : Row) : Row :=
  if hasID id r
  then {| r_id := r_id r; r_user_id := r_user_id r;
          r_title := title; r_done := r_done r |}
  else r.

Definition setDone (done : bool) (id : Z) (r : Row) : Row :=
  if hasID id r
  then {| r_id := r_id r; r_user_id := r_user_id r;
          r_title := r_title r; r_done := Some done |}
  else r.

(** [UPDATE tasks SET title = $1 WHERE id = $2]; the answer is the
    command tag's row count. *)
Definition execUpdateTitle (title : string) (id : Z) : M (result Z) :=
  failed <- roundTrip (UpdateTitle title id) ;;
  if failed : bool then ret (Err ErrUpstream)
  else
    rs <- getTasks ;;
    putTasks (map (setTitle title id) rs) ;;;
    ret (Ok (rowsAffected id rs)).

(** [UPDATE tasks SET done = $1 WHERE id = $2]. *)
Definition execUpdateDone (done : bool) (id : Z) : M (result Z) :=
  failed <- roundTrip (UpdateDone done id) ;;
  if failed : bool then ret (Err ErrUpstream)
  else
    rs <- getTasks ;;
    putTasks (map (setDone done id) rs) ;;;
    ret (Ok (rowsAffected id rs)).

(** [DELETE FROM tasks WHERE id = $1]. *)
Definition execDelete (id : Z) : M (result Z) :=
  failed <- roundTrip (DeleteByID id) ;;
  if failed : bool then ret (Err ErrUpstream)
  else
    rs <- getTasks ;;
    putTasks (filter (fun r => negb (hasID id r)) rs) ;;;
    ret (Ok (rowsAffected id rs)).

(** The error of a call, as Go's [err] variable holds it. *)
Definition errOf {A} (r : result A) : option DbError :=
  match r with
  | Ok _ => None
  | Err e => Some e
  end.

(** ** Requests *)

(** The body of a request, as [json.NewDecoder(r.Body).Decode(&req)]
    leaves it for each of the two request structs; [None] is a non-nil
    decode error. *)
Record RequestBody := {
  asCreateTaskRequest : option CreateTaskRequest;
  asUpdateTaskRequest : option UpdateTaskRequest
}.

(** [r.Method], [r.URL.Path] and [r.Body]. *)
Record Request := {
  Method : string;
  URLPath : string;
  Body : RequestBody
}.

Definition MethodGet : string := "GET".
Definition MethodPost : string := "POST".
Definition MethodPut : string := "PUT".
Definition MethodDelete : string := "DELETE".

(** ** Handlers *)

(** The row loop of [handleListTasks]: [for rows.Next() { ... }]. *)
Fixpoint scanRows (rows : list Row) (tasks : TaskSlice) : Response :=
  match rows with
  | [] => writeJSON StatusOK tasks
  | r :: rest =>
      match Scan r with
      | Err _ => writeError StatusInternalServerError "failed to scan task"
      | Ok t => scanRows rest (append tasks t)
      end
  end.

(** GET /tasks: list all tasks. *)
Definition handleListTasks (r : Request) : M Response :=
  res <- querySelectAll ;;
  match res with
  | Err e =>
      logPrintf "listTasks" e ;;;
      ret (writeError StatusInternalServerError "failed to query tasks")
  | Ok rows =>
      (* empty slice, not nil (so JSON is [] not null); rows.Err() is
         not read *)
      ret (scanRows (delivered rows) (Some []))
  end.

(** POST /tasks: create a task. *)
Definition handleCreateTask (r : Request) : M Response :=
  match asCreateTaskRequest (Body r) with
  | None => ret (writeError StatusBadRequest "invalid JSON body")
  | Some req =>
      if String.eqb (cr_Title req) ""
      then ret (writeError StatusBadRequest "title is required")
      else if cr_UserID req =? 0
      then ret (writeError StatusBadRequest "user_id is required")
      else
        res <- queryRowInsert (cr_UserID req) (cr_Title req) ;;
        match res with
        | Err e =>
            logPrintf "createTask" e ;;;
            ret (writeError StatusInternalServerError "failed to create task")
        | Ok task => ret (writeJSON StatusCreated task)
        end
  end.

(** [fmt.Sprintf("task %d not found", id)]. *)
Definition notFoundMsg (id : Z) : string :=
  "task " ++ itoa id ++ " not found".

(** GET /tasks/{id}: get a single task. *)
Definition handleGetTask (r : Request) : M Response :=
  match extractID (URLPath r) "/tasks/" with
  | None => ret (writeError StatusBadRequest "invalid task ID")
  | Some id =>
      res <- queryRowSelect id ;;
      match res with
      | Err _ => ret (writeError StatusNotFound (notFoundMsg id))
      | Ok task => ret (writeJSON StatusOK task)
      end
  end.

(** PUT /tasks/{id}: update a task.  [err] is the variable declared by
    [id, err := extractID(...)]; each write that is issued assigns it. *)
Definition handleUpdateTask (r : Request) : M Response :=
  match extractID (URLPath r) "/tasks/" with
  | None => ret (writeError StatusBadRequest "invalid task ID")
  | Some id =>
      match asUpdateTaskRequest (Body r) with
      | None => ret (writeError StatusBadRequest "invalid JSON body")
      | Some req =>
          let err : option DbError := None in
          err <- match up_Title req with
                 | Some title =>
                     res <- execUpdateTitle title id ;; ret (errOf res)
                 | None => ret err
                 end ;;
          err <- match up_Done req with
                 | Some done =>
                     res <- execUpdateDone done id ;; ret (errOf res)
                 | None => ret err
                 end ;;
          match err with
          | Some _ =>
              ret (writeError StatusInternalServerError "failed to update task")
          | None =>
              res <- queryRowSelect id ;;
              match res with
              | Err _ => ret (writeError StatusNotFound (notFoundMsg id))
              | Ok task => ret (writeJSON StatusOK task)
              end
          end
      end
  end.

(** DELETE /tasks/{id}. *)
Definition handleDeleteTask (r : Request) : M Response :=
  match extractID (URLPath r) "/tasks/" with
  | None => ret (writeError StatusBadRequest "invalid task ID")
  | Some id =>
      res <- execDelete id ;;
      match res with
      | Err _ =>
          ret (writeError StatusInternalServerError "failed to delete task")
      | Ok n =>
          if n =? 0
          then ret (writeError StatusNotFound (notFoundMsg id))
          else ret (writeHeaderOnly StatusNoContent)
      end
  end.

(** ** Router *)

(** The handler registered for [/tasks]. *)
Definition tasksCollection (r : Request) : M Response :=
  if String.eqb (Method r) MethodGet then handleListTasks r
  else if String.eqb (Method r) MethodPost then handleCreateTask r
  else ret (writeError StatusMethodNotAllowed "method not allowed").

(** The handler registered for [/tasks/]. *)
Definition tasksResource (r : Request) : M Response :=
  if String.eqb (Method r) MethodGet then handleGetTask r
  else if String.eqb (Method r) MethodPut then handleUpdateTask r
  else if String.eqb (Method r) MethodDelete then handleDeleteTask r
  else ret (writeError StatusMethodNotAllowed "method not allowed").

(** The handler registered for [/health]. *)
Definition health (r : Request) : M Response :=
  ret (writeJSON StatusOK [("status", "ok")]).

(** [http.NotFound], the answer of the mux to a path with no pattern. *)
Definition notFound : Response :=
  {| status := StatusNotFound;
     content_type := Some "text/plain; charset=utf-8";
     body := TextBody ("404 page not found" ++ String "010" "") |}.

(** The segments of a path, cut at every slash. *)
Fixpoint splitSlash (s : string) : list string :=
  match s with
  | EmptyString => [EmptyString]
  | String c rest =>
      if Ascii.eqb c "/" then EmptyString :: splitSlash rest
      else
        match splitSlash rest with
        | seg :: segs => String c seg :: segs
        | [] => [String c EmptyString]
        end
  end.

(** The elements [path.Clean] keeps of a rooted path, the last one
    first: empty and [.] elements are dropped, [..] drops the element
    before it, if any. *)
Fixpoint cleanElems (segs kept : list string) : list string :=
  match segs with
  | [] => kept
  | seg :: rest =>
      if String.eqb seg "" || String.eqb seg "." then cleanElems rest kept
      else if String.eqb seg ".." then cleanElems rest (tl kept)
      else cleanElems rest (seg :: kept)
  end.

Definition joinRooted (elems : list string) : string :=
  match elems with
  | [] => "/"
  | _ :: _ => fold_right (fun e rest => "/" ++ e ++ rest) "" elems
  end.

(** [path.Clean] on a rooted path. *)
Definition cleanRooted (p : string) : string :=
  joinRooted (rev (cleanElems (splitSlash p) [])).

(** [cleanPath] of net/http: the canonical form of a request path;
    [path.Clean] removes the trailing slash, which is put back. *)
Definition cleanPath (p : string) : string :=
  match p with
  | EmptyString => "/"
  | String c _ =>
      let p := if Ascii.eqb c "/" then p else "/" ++ p in
      let np := cleanRooted p in
      if HasSuffix p "/" && negb (String.eqb np "/") then np ++ "/" else np
  end.

(** Whether the mux answers the request itself, with a redirect to the
    canonical form of its path: CONNECT requests are not canonicalised. *)
Definition redirected (r : Request) : bool :=
  negb (String.eqb (Method r) "CONNECT")
  && negb (String.eqb (cleanPath (URLPath r)) (URLPath r)).

(** [http.Redirect(w, r, url, StatusTemporaryRedirect)]. *)
Definition redirect (r : Request) (url : string) : Response :=
  {| status := StatusTemporaryRedirect;
     content_type :=
       if String.eqb (Method r) "GET" || String.eqb (Method r) "HEAD"
       then Some "text/html; charset=utf-8" else None;
     body := RedirectTo url |}.

(** [routes]: the mux with its three patterns.  A request whose path is
    not in canonical form is redirected to that form before any handler
    runs.  [/tasks] and [/health] match that path only, [/tasks/] matches
    every path it is a prefix of.  [URLPath] is the path of the request
    as it was sent, free of percent escapes, so that [r.URL.Path] and
    [r.URL.EscapedPath()] are the same string. *)
Definition routes (r : Request) : M Response :=
  if redirected r then ret (redirect r (cleanPath (URLPath r)))
  else if String.eqb (URLPath r) "/tasks" then tasksCollection r
  else if HasPrefix (URLPath r) "/tasks/" then tasksResource r
  else if String.eqb (URLPath r) "/health" then health r
  else ret notFound.

(** * Properties *)

(** ** Sample worlds and requests *)

Definition noBody : RequestBody :=
  {| asCreateTaskRequest := None; asUpdateTaskRequest := None |}.

Definition updateBody (req : UpdateTaskRequest) : RequestBody :=
  {| asCreateTaskRequest := None; asUpdateTaskRequest := Some req |}.

Definition createBody (req : CreateTaskRequest) : RequestBody :=
  {| asCreateTaskRequest := Some req; asUpdateTaskRequest := None |}.

(** The first two tasks of the seed data. *)
Definition seeded : World :=
  {| tasks := [ {| r_id := 1; r_user_id := Some 1;
                   r_title := "Learn Go basics"; r_done := Some true |};
                {| r_id := 2; r_user_id := Some 1;
                   r_title := "Build REST API"; r_done := Some false |} ];
     tasks_id_seq := 3; outage := []; streams := []; issued := [];
     logged := [] |}.

(** The same table when the next round trip fails. *)
Definition seededDown : World :=
  {| tasks := tasks seeded; tasks_id_seq := 3; outage := [true];
     streams := []; issued := []; logged := [] |}.

(** The same table when the rows of the next query break off after the
    first one. *)
Definition seededBroken : World :=
  {| tasks := tasks seeded; tasks_id_seq := 3; outage := [];
     streams := [Some 1%nat]; issued := []; logged := [] |}.

Definition emptyTable : World :=
  {| tasks := []; tasks_id_seq := 1; outage := []; streams := [];
     issued := []; logged := [] |}.

(** A string without a slash: one segment of a path. *)
Fixpoint slashFree (s : string) : bool :=
  match s with
  | EmptyString => true
  | String c rest => negb (Ascii.eqb c "/") && slashFree rest
  end.

(** The writes a PUT body asks for: one per field that is present, the
    title first. *)
Definition fieldWrites (id : Z) (req : UpdateTaskRequest) : list Sql :=
  (match up_Title req with Some title => [UpdateTitle title id] | None => [] end
   ++
   match up_Done req with Some done => [UpdateDone done id] | None => [] end)%list.

(** ** Serving several requests *)

(** [later w w']: [w'] is [w] after some requests were served. *)
Inductive later (w : World) : World -> Prop :=
| later_now : later w w
| later_step (w' : World) (r : Request) :
    later w w' -> later w (snd (routes r w')).

(** Every stored id is below the next value of the sequence, and no two
    rows share an id. *)
Definition wellKeyed (w : World) : Prop :=
  NoDup (map r_id (tasks w))
  /\ Forall (fun id => id < tasks_id_seq w) (map r_id (tasks w)).

(** ** The syntax refresher (cmd/examples/01_syntax.go) *)

Module SyntaxRefresher.

(** Arithmetic on [int] wraps around: the result modulo 2^64, taken in
    the range of [int]. *)
Definition wrapInt (z : Z) : Z := (z - minInt) mod 2 ^ 64 + minInt.

(** The loop of [minMax]: [for _, n := range nums]. *)
Fixpoint minMaxLoop (nums : list Z) (min max : Z) : Z * Z :=
  match nums with
  | [] => (min, max)
  | n :: rest =>
      let min := if n <? min then n else min in
      let max := if n >? max then n else max in
      minMaxLoop rest min max
  end.

(** [minMax]: [nums[0]] panics on an empty slice, which is [None]. *)
Definition minMax (nums : list Z) : option (Z * Z) :=
  match nums with
  | [] => None
  | n0 :: _ => Some (minMaxLoop nums n0 n0)
  end.

(** The loop of [sum]: [total += n]. *)
Fixpoint sumLoop (nums : list Z) (total : Z) : Z :=
  match nums with
  | [] => total
  | n :: rest => sumLoop rest (wrapInt (total + n))
  end.

(** [sum]. *)
Definition sum (nums : list Z) : Z := sumLoop nums 0.

End SyntaxRefresher.

(** ** The database walk-through (cmd/examples/03_database.go) *)

Module DatabaseExample.

(** [User]; [CreatedAt] is a [time.Time], kept as a timestamp. *)
Record User := {
  ID : Z;
  Name : string;
  Email : string;
  CreatedAt : Z
}.

(** The rows of the sample schema: [users.created_at], [tasks.user_id],
    [tasks.done] and [tasks.created_at] are nullable. *)
Record UserRow := {
  u_id : Z;
  u_name : string;
  u_email : string;
  u_created_at : option Z
}.

Record TaskRow := {
  t_id : Z;
  t_user_id : option Z;
  t_title : string;
  t_done : option bool;
  t_created_at : option Z
}.

Inductive PgError :=
| NoRows                (* pgx.ErrNoRows                                *)
| Upstream              (* the round trip failed, or the server refused *)
| UniqueViolation       (* users_pkey, users_email_key or tasks_pkey    *)
| ForeignKeyViolation   (* tasks_user_id_fkey                           *)
| ScanNull              (* a NULL column scanned into a non-pointer     *)
| StreamBroken.         (* the rows of a query stopped coming           *)

(** The errors the functions return: [fmt.Errorf] with and without a
    wrapped cause. *)
Inductive GoError :=
| Plain (msg : string)
| Wrap (context : string) (cause : PgError).

(** What a round trip meets: it succeeds, it fails, or, for a query, the
    rows break off after some of them were delivered. *)
Inductive Outcome :=
| Succeeds
| Fails
| Breaks (delivered : nat).

(** [Db]: the two tables with their sequences, what [NOW()] gives, the
    outcome of the coming round trips (none left: they succeed), and the
    lines printed on standard output. *)
Record Db := {
  users : list UserRow;
  tasks : list TaskRow;
  users_id_seq : Z;
  tasks_id_seq : Z;
  now : Z;
  weather : list Outcome;
  printed : list string
}.

Definition D (A : Type) : Type := Db -> A * Db.

Definition unit {A} (a : A) : D A := fun db => (a, db).

Definition andThen {A B} (m : D A) (k : A -> D B) : D B :=
  fun db => let (a, db') := m db in k a db'.

Notation "x <~ m ;; k" := (andThen m (fun x => k))
  (at level 61, m at next level, right associativity).
Notation "m ;;> k" := (andThen m (fun _ => k))
  (at level 61, right associativity).

Inductive result (A : Type) :=
| Ok (a : A)
| Err (e : PgError).
Arguments Ok {A} a.
Arguments Err {A} e.

(** One round trip: the next outcome is taken. *)
Definition roundTrip : D Outcome :=
  fun db =>
    (hd Succeeds (weather db),
     {| users := users db; tasks := tasks db;
        users_id_seq := users_id_seq db; tasks_id_seq := tasks_id_seq db;
        now := now db; weather := tl (weather db);
        printed := printed db |}).

Definition getUsers : D (list UserRow) := fun db => (users db, db).
Definition getTasks : D (list TaskRow) := fun db => (tasks db, db).
Definition getNow : D Z := fun db => (now db, db).

Definition putUsers (us : list UserRow) : D Datatypes.unit :=
  fun db =>
    (tt, {| users := us; tasks := tasks db;
            users_id_seq := users_id_seq db;
            tasks_id_seq := tasks_id_seq db; now := now db;
            weather := weather db; printed := printed db |}).

Definition putTasks (ts : list TaskRow) : D Datatypes.unit :=
  fun db =>
    (tt, {| users := users db; tasks := ts;
            users_id_seq := users_id_seq db;
            tasks_id_seq := tasks_id_seq db; now := now db;
            weather := weather db; printed := printed db |}).

(** [nextval('users_id_seq')] and [nextval('tasks_id_seq')]. *)
Definition nextUserID : D Z :=
  fun db =>
    (users_id_seq db,
     {| users := users db; tasks := tasks db;
        users_id_seq := users_id_seq db + 1;
        tasks_id_seq := tasks_id_seq db; now := now db;
        weather := weather db; printed := printed db |}).

Definition nextTaskID : D Z :=
  fun db =>
    (tasks_id_seq db,
     {| users := users db; tasks := tasks db;
        users_id_seq := users_id_seq db;
        tasks_id_seq := tasks_id_seq db + 1; now := now db;
        weather := weather db; printed := printed db |}).

(** [fmt.Printf]. *)
Definition Printf (line : string) : D Datatypes.unit :=
  fun db =>
    (tt, {| users := users db; tasks := tasks db;
            users_id_seq := users_id_seq db;
            tasks_id_seq := tasks_id_seq db; now := now db;
            weather := weather db;
            printed := (printed db ++ [line])%list |}).

(** [ORDER BY id] on [users]: the rows by ascending id. *)
Fixpoint insertByID (r : UserRow) (sorted : list UserRow) : list UserRow :=
  match sorted with
  | [] => [r]
  | x :: rest =>
      if u_id r <=? u_id x then r :: sorted else x :: insertByID r rest
  end.

Definition orderByID (rs : list UserRow) : list UserRow :=
  fold_right insertByID [] rs.

(** [Scan(&u.ID, &u.Name, &u.Email, &u.CreatedAt)]. *)
Definition ScanUser (r : UserRow) : result User :=
  match u_created_at r with
  | Some at_ =>
      Ok {| ID := u_id r; Name := u_name r; Email := u_email r;
            CreatedAt := at_ |}
  | None => Err ScanNull
  end.

Definition isUser (id : Z) (r : UserRow) : bool := u_id r =? id.

Definition ownedBy (id : Z) (t : TaskRow) : bool :=
  match t_user_id t with
  | Some u => u =? id
  | None => false
  end.

(** The rows a query delivers, and what [rows.Err()] says once [Next]
    has returned false. *)
Record Rows := {
  delivered : list UserRow;
  rowsErr : option PgError
}.

(** [pool.Query(ctx, "SELECT id, name, email, created_at FROM users
    ORDER BY id")]. *)
Definition queryUsers : D (result Rows) :=
  o <~ roundTrip ;;
  us <~ getUsers ;;
  match o with
  | Succeeds =>
      unit (Ok {| delivered := orderByID us; rowsErr := None |})
  | Fails => unit (Err Upstream)
  | Breaks n =>
      unit (Ok {| delivered := firstn n (orderByID us);
                  rowsErr := Some StreamBroken |})
  end.

(** A statement that answers one row or none: a broken stream is a
    failure. *)
Definition failed (o : Outcome) : bool :=
  match o with
  | Succeeds => false
  | Fails | Breaks _ => true
  end.

(** [QueryRow(ctx, "SELECT id, name, email, created_at FROM users WHERE
    id = $1", id).Scan(...)]. *)
Definition queryRowUser (id : Z) : D (result User) :=
  o <~ roundTrip ;;
  if failed o then unit (Err Upstream)
  else
    us <~ getUsers ;;
    match find (isUser id) us with
    | Some r => unit (ScanUser r)
    | None => unit (Err NoRows)
    end.

Definition emailTaken (email : string) (us : list UserRow) : bool :=
  existsb (fun r => String.eqb (u_email r) email) us.

(** The effect of [INSERT INTO users (name, email) VALUES ($1, $2)]:
    [id] from the sequence, [created_at] from [NOW()], [email] UNIQUE. *)
Definition insertUserRow (name email : string) : D (result UserRow) :=
  id <~ nextUserID ;;
  at_ <~ getNow ;;
  us <~ getUsers ;;
  if existsb (isUser id) us || emailTaken email us
  then unit (Err UniqueViolation)
  else
    let r := {| u_id := id; u_name := name; u_email := email;
                u_created_at := Some at_ |} in
    putUsers (us ++ [r])%list ;;> unit (Ok r).

(** The effect of [INSERT INTO tasks (user_id, title) VALUES ($1, $2)]:
    [user_id] REFERENCES [users(id)], [done] DEFAULT FALSE. *)
Definition insertTaskRow (user_id : Z) (title : string) : D (result TaskRow) :=
  id <~ nextTaskID ;;
  at_ <~ getNow ;;
  us <~ getUsers ;;
  ts <~ getTasks ;;
  if negb (existsb (isUser user_id) us) then unit (Err ForeignKeyViolation)
  else if existsb (fun t => t_id t =? id) ts then unit (Err UniqueViolation)
  else
    let r := {| t_id := id; t_user_id := Some user_id; t_title := title;
                t_done := Some false; t_created_at := Some at_ |} in
    putTasks (ts ++ [r])%list ;;> unit (Ok r).

Definition rename (newName : string) (id : Z) (r : UserRow) : UserRow :=
  if isUser id r
  then {| u_id := u_id r; u_name := newName; u_email := u_email r;
          u_created_at := u_created_at r |}
  else r.

Definition countUsers (id : Z) (us : list UserRow) : Z :=
  Z.of_nat (List.length (filter (isUser id) us)).

(** [pool.Exec(ctx, "UPDATE users SET name = $1 WHERE id = $2", ...)]. *)
Definition execRename (newName : string) (id : Z) : D (result Z) :=
  o <~ roundTrip ;;
  if failed o then unit (Err Upstream)
  else
    us <~ getUsers ;;
    putUsers (map (rename newName id) us) ;;>
    unit (Ok (countUsers id us)).

(** [pool.Exec(ctx, "DELETE FROM users WHERE id = $1", id)]; the tasks of
    a deleted user go too: [ON DELETE CASCADE]. *)
Definition execDeleteUser (id : Z) : D (result Z) :=
  o <~ roundTrip ;;
  if failed o then unit (Err Upstream)
  else
    us <~ getUsers ;;
    ts <~ getTasks ;;
    putUsers (filter (fun r => negb (isUser id r)) us) ;;>
    putTasks (if existsb (isUser id) us
              then filter (fun t => negb (ownedBy id t)) ts
              else ts) ;;>
    unit (Ok (countUsers id us)).

(** The functions return a value or an error; the other one is nil. *)
Inductive returned (A : Type) :=
| Value (a : A)
| Error (e : GoError).
Arguments Value {A} a.
Arguments Error {A} e.

(** [[]User]: [None] is the nil slice. *)
Definition UserSlice := option (list User).

Definition append (s : UserSlice) (u : User) : UserSlice :=
  match s with
  | None => Some [u]
  | Some us => Some (us ++ [u])%list
  end.

(** The row loop of [listUsers], then the check of [rows.Err()]. *)
Fixpoint scanUsers (rows : list UserRow) (rowsErr : option PgError)
    (users : UserSlice) : returned UserSlice :=
  match rows with
  | [] =>
      match rowsErr with
      | Some e => Error (Wrap "rows iteration" e)
      | None => Value users
      end
  | r :: rest =>
      match ScanUser r with
      | Err e => Error (Wrap "scan user" e)
      | Ok u => scanUsers rest rowsErr (append users u)
      end
  end.

(** [listUsers]. *)
Definition listUsers : D (returned UserSlice) :=
  res <~ queryUsers ;;
  match res with
  | Err e => unit (Error (Wrap "query users" e))
  | Ok rows => unit (scanUsers (delivered rows) (rowsErr rows) None)
  end.

(** [getUserByID]. *)
Definition getUserByID (id : Z) : D (returned User) :=
  res <~ queryRowUser id ;;
  match res with
  | Err NoRows => unit (Error (Plain ("user " ++ itoa id ++ " not found")))
  | Err e => unit (Error (Wrap ("query user " ++ itoa id) e))
  | Ok u => unit (Value u)
  end.

(** [createUser]: [INSERT ... RETURNING id, name, email, created_at]. *)
Definition createUser (name email : string) : D (returned User) :=
  o <~ roundTrip ;;
  if failed o then unit (Error (Wrap "create user" Upstream))
  else
    res <~ insertUserRow name email ;;
    match res with
    | Err e => unit (Error (Wrap "create user" e))
    | Ok r =>
        match ScanUser r with
        | Err e => unit (Error (Wrap "create user" e))
        | Ok u => unit (Value u)
        end
    end.

(** [updateUserName]. *)
Definition updateUserName (id : Z) (newName : string) : D (option GoError) :=
  res <~ execRename newName id ;;
  match res with
  | Err e => unit (Some (Wrap "update user" e))
  | Ok n =>
      if n =? 0
      then unit (Some (Plain ("user " ++ itoa id ++ " not found")))
      else
        Printf ("  updated " ++ itoa n ++ " row(s)" ++ String "010" "") ;;>
        unit None
  end.

(** [deleteUser]. *)
Definition deleteUser (id : Z) : D (option GoError) :=
  res <~ execDeleteUser id ;;
  match res with
  | Err e => unit (Some (Wrap "delete user" e))
  | Ok n =>
      Printf ("  deleted " ++ itoa n ++ " row(s)" ++ String "010" "") ;;>
      unit None
  end.

(** [tx.Rollback(ctx)] on an open transaction: the tables are those of
    the time of [Begin] again; sequences keep what they handed out. *)
Definition rollback (begun : Db) : D Datatypes.unit :=
  roundTrip ;;> putUsers (users begun) ;;> putTasks (tasks begun).

(** [createUserWithTask]: the deferred [Rollback] runs on every return
    after [Begin]; once [Commit] was sent the transaction is closed and
    the deferred call does nothing. *)
Definition createUserWithTask (name email taskTitle : string)
    : D (option GoError) :=
  fun begun =>
    (o <~ roundTrip ;;
     if failed o then unit (Some (Wrap "begin tx" Upstream))
     else
       o <~ roundTrip ;;
       res <~ (if failed o then unit (Err Upstream)
               else insertUserRow name email) ;;
       match res with
       | Err e => rollback begun ;;> unit (Some (Wrap "insert user" e))
       | Ok u =>
           let userID := u_id u in
           o <~ roundTrip ;;
           res <~ (if failed o then unit (Err Upstream)
                   else insertTaskRow userID taskTitle) ;;
           match res with
           | Err e => rollback begun ;;> unit (Some (Wrap "insert task" e))
           | Ok _ =>
               o <~ roundTrip ;;
               if failed o
               then putUsers (users begun) ;;> putTasks (tasks begun) ;;>
                    unit (Some (Wrap "commit" Upstream))
               else
                 Printf ("  created user " ++ itoa userID ++ " with task '"
                         ++ taskTitle ++ "'" ++ String "010" "") ;;>
                 unit None
           end
       end) begun.

(** The rows an insert adds. *)
Definition newUserRow (name email : string) (db : Db) : UserRow :=
  {| u_id := users_id_seq db; u_name := name; u_email := email;
     u_created_at := Some (now db) |}.

Definition newTaskRow (title : string) (db : Db) : TaskRow :=
  {| t_id := tasks_id_seq db; t_user_id := Some (users_id_seq db);
     t_title := title; t_done := Some false;
     t_created_at := Some (now db) |}.

(** What holds of the tables as long as the schema is enforced: no two
    users share an id or an email, and every task that names a user names
    a stored one. *)
Definition consistent (db : Db) : Prop :=
  NoDup (map u_id (users db))
  /\ NoDup (map u_email (users db))
  /\ forall t u, In t (tasks db) -> t_user_id t = Some u ->
       exists r, In r (users db) /\ u_id r = u.

Definition sampleDb : Db :=
  {| users := [ {| u_id := 1; u_name := "Alice";
                      u_email := "alice@example.com";
                      u_created_at := Some 0 |};
                   {| u_id := 2; u_name := "Bob";
                      u_email := "bob@example.com";
                      u_created_at := Some 0 |} ];
     tasks := [ {| t_id := 1; t_user_id := Some 1;
                      t_title := "Learn Go basics";
                      t_done := Some true; t_created_at := Some 0 |};
                   {| t_id := 2; t_user_id := Some 2;
                      t_title := "Study goroutines";
                      t_done := Some false; t_created_at := Some 0 |} ];
     users_id_seq := 3; tasks_id_seq := 3; now := 100;
     weather := []; printed := [] |}.

End DatabaseExample.

(** ** Strings *)

Lemma length_app (s t : string) :
  String.length (s ++ t) = (String.length s + String.length t)%nat.
Proof. induction s as [|c s IH]; simpl; [reflexivity | now rewrite IH]. Qed.

Lemma substring_skip (s t : string) (k : nat) :
  substring (String.length s) k (s ++ t) = substring 0 k t.
Proof. induction s as [|c s IH]; simpl; [reflexivity | exact IH]. Qed.

Lemma substring_take (s t : string) :
  substring 0 (String.length s) (s ++ t) = s.
Proof.
  induction s as [|c s IH]; simpl.
  - now destruct t.
  - now rewrite IH.
Qed.

Lemma strip_app (p s : string) : strip p (p ++ s) = Some s.
Proof.
  induction p as [|c p IH]; simpl; [reflexivity|].
  now rewrite Ascii.eqb_refl.
Qed.

Lemma TrimPrefix_app (p s : string) : TrimPrefix (p ++ s) p = s.
Proof. unfold TrimPrefix. now rewrite strip_app. Qed.

Lemma HasPrefix_app (p s : string) : HasPrefix (p ++ s) p = true.
Proof. unfold HasPrefix. now rewrite strip_app. Qed.

(** One trailing slash, and only one, is removed. *)
Lemma TrimSuffix_slash (s : string) : TrimSuffix (s ++ "/") "/" = s.
Proof.
  unfold TrimSuffix, HasSuffix.
  rewrite length_app. simpl String.length.
  replace (String.length s + 1 - 1)%nat with (String.length s) by lia.
  rewrite substring_skip, substring_take.
  replace (1 <=? String.length s + 1)%nat with true
    by (symmetry; apply Nat.leb_le; lia).
  reflexivity.
Qed.

Lemma TrimSuffix_none (s suffix : string) :
  HasSuffix s suffix = false -> TrimSuffix s suffix = s.
Proof. unfold TrimSuffix. now intros ->. Qed.

Lemma extractID_tasks (s : string) :
  extractID ("/tasks/" ++ s) "/tasks/" = Atoi (TrimSuffix s "/").
Proof. unfold extractID. now rewrite TrimPrefix_app. Qed.

Lemma prefixed_not_collection (s : string) :
  HasPrefix s "/tasks/" = true -> String.eqb s "/tasks" = false.
Proof.
  intros H. apply String.eqb_neq. intros ->. discriminate H.
Qed.

Lemma Atoi_fits (s : string) (n : Z) : Atoi s = Some n -> fitsInt n = true.
Proof.
  unfold Atoi. destruct s as [|c rest]; [discriminate|].
  cbv zeta.
  destruct (if (c =? "-")%char || (c =? "+")%char then rest else String c rest);
    [discriminate|].
  destruct (digits _ 0); [|discriminate].
  destruct (fitsInt _) eqn:E; [|discriminate].
  now intros [= <-].
Qed.

Lemma digit_not_sign (c : ascii) (d : Z) :
  digit c = Some d ->
  Ascii.eqb c "-" = false /\ Ascii.eqb c "+" = false
  /\ Ascii.eqb c "/" = false.
Proof.
  intros H. repeat split; apply Ascii.eqb_neq; intros ->; discriminate H.
Qed.

Lemma HasSuffix_slash_cons (c : ascii) (rest : string) :
  HasSuffix (String c rest) "/"
  = match rest with
    | EmptyString => Ascii.eqb c "/"
    | _ => HasSuffix rest "/"
    end.
Proof.
  unfold HasSuffix. destruct rest as [|c' r]; cbn.
  - now destruct (Ascii.eqb c "/").
  - now rewrite Nat.sub_0_r.
Qed.

Lemma digits_no_slash (s : string) (acc v : Z) :
  digits s acc = Some v -> HasSuffix s "/" = false.
Proof.
  revert acc. induction s as [|c rest IH]; intros acc; [reflexivity|].
  cbn [digits]. destruct (digit c) as [d|] eqn:Hc; [|discriminate].
  intros H. rewrite HasSuffix_slash_cons.
  destruct rest; [apply (digit_not_sign _ _ Hc) | exact (IH _ H)].
Qed.

(** ** Canonical paths *)

Lemma append_empty (s : string) : s ++ "" = s.
Proof. induction s as [|c s IH]; simpl; [reflexivity | now rewrite IH]. Qed.

Lemma strip_some (p s rest : string) : strip p s = Some rest -> s = p ++ rest.
Proof.
  revert s. induction p as [|a p IH]; intros s; simpl.
  - now intros [= ->].
  - destruct s as [|b s]; [discriminate|].
    destruct (Ascii.eqb_spec a b) as [->|]; [|discriminate].
    intros H. now rewrite (IH _ H).
Qed.

Lemma HasPrefix_split (s p : string) :
  HasPrefix s p = true -> s = p ++ TrimPrefix s p.
Proof.
  unfold HasPrefix, TrimPrefix.
  destruct (strip p s) as [rest|] eqn:H; [|discriminate].
  intros _. now apply strip_some.
Qed.

Lemma HasSuffix_split (s : string) :
  HasSuffix s "/" = true -> s = TrimSuffix s "/" ++ "/".
Proof.
  intros H.
  assert (exists t, s = t ++ "/") as [t ->].
  { induction s as [|c rest IH]; [discriminate|].
    rewrite HasSuffix_slash_cons in H. destruct rest as [|c' r].
    - apply Ascii.eqb_eq in H as ->. now exists "".
    - destruct (IH H) as [t Ht]. exists (String c t). simpl. now rewrite Ht. }
  now rewrite TrimSuffix_slash.
Qed.

Lemma digits_slashFree (s : string) (acc v : Z) :
  digits s acc = Some v -> slashFree s = true.
Proof.
  revert acc. induction s as [|c rest IH]; intros acc; [reflexivity|].
  cbn [digits slashFree]. destruct (digit c) as [d|] eqn:Hc; [|discriminate].
  intros H. destruct (digit_not_sign _ _ Hc) as (_ & _ & ->).
  exact (IH _ H).
Qed.

(** What [Atoi] parses is one plain segment. *)
Lemma Atoi_plain (s : string) (n : Z) :
  Atoi s = Some n ->
  slashFree s = true
  /\ String.eqb s "" = false /\ String.eqb s "." = false
  /\ String.eqb s ".." = false.
Proof.
  unfold Atoi. destruct s as [|c rest]; [discriminate|]. cbv zeta.
  destruct (Ascii.eqb_spec c "-") as [->|Hminus].
  - cbn [orb]. destruct rest as [|c' r]; [discriminate|].
    destruct (digits (String c' r) 0) eqn:Hd; [|discriminate].
    intros _. pose proof (digits_slashFree _ _ _ Hd) as Hf.
    change (slashFree (String "-" (String c' r)))
      with (slashFree (String c' r)).
    now repeat split.
  - destruct (Ascii.eqb_spec c "+") as [->|Hplus]; cbn [orb].
    + destruct rest as [|c' r]; [discriminate|].
      destruct (digits (String c' r) 0) eqn:Hd; [|discriminate].
      intros _. pose proof (digits_slashFree _ _ _ Hd) as Hf.
      change (slashFree (String "+" (String c' r)))
        with (slashFree (String c' r)).
      now repeat split.
    + destruct (digits (String c rest) 0) eqn:Hd; [|discriminate].
      intros _. pose proof (digits_slashFree _ _ _ Hd) as Hf.
      cbn [digits] in Hd. destruct (digit c) eqn:Hc; [|discriminate].
      assert (Ascii.eqb c "." = false) as Hdot
        by (apply Ascii.eqb_neq; intros ->; discriminate Hc).
      cbn [String.eqb]. rewrite Hdot. now repeat split.
Qed.

Lemma splitSlash_plain (s : string) :
  slashFree s = true ->
  splitSlash s = [s] /\ splitSlash (s ++ "/") = [s; ""].
Proof.
  induction s as [|c rest IH]; cbn [slashFree]; [now split|].
  intros H. apply andb_true_iff in H as [Hc Hrest].
  apply negb_true_iff in Hc. destruct (IH Hrest) as [IH1 IH2].
  split.
  - cbn [splitSlash]. now rewrite Hc, IH1.
  - change (String c rest ++ "/") with (String c (rest ++ "/")).
    cbn [splitSlash]. now rewrite Hc, IH2.
Qed.

Lemma plain_no_suffix (s : string) :
  slashFree s = true -> HasSuffix s "/" = false.
Proof.
  induction s as [|c rest IH]; [reflexivity|]. cbn [slashFree].
  intros H. apply andb_true_iff in H as [Hc Hrest].
  apply negb_true_iff in Hc. rewrite HasSuffix_slash_cons.
  destruct rest; [exact Hc | exact (IH Hrest)].
Qed.

Lemma slash_suffix (s : string) : HasSuffix (s ++ "/") "/" = true.
Proof.
  induction s as [|c rest IH]; [reflexivity|].
  cbn [String.append]. rewrite HasSuffix_slash_cons.
  destruct rest; [reflexivity | exact IH].
Qed.

Lemma suffix_after_tasks (s : string) :
  HasSuffix ("/tasks/" ++ s) "/"
  = match s with EmptyString => true | _ => HasSuffix s "/" end.
Proof.
  cbn [String.append]. rewrite !HasSuffix_slash_cons. now destruct s.
Qed.

(** A path [/tasks/s] or [/tasks/s/] with one plain segment [s] is in
    canonical form. *)
Lemma clean_plain_path (s : string) :
  slashFree s = true -> String.eqb s "" = false ->
  String.eqb s "." = false -> String.eqb s ".." = false ->
  cleanPath ("/tasks/" ++ s) = "/tasks/" ++ s
  /\ cleanPath ("/tasks/" ++ s ++ "/") = "/tasks/" ++ s ++ "/".
Proof.
  intros Hfree Hne Hdot Hdots.
  destruct (splitSlash_plain s Hfree) as [Hs1 Hs2].
  assert (Hnp : forall t, splitSlash t = [s] \/ splitSlash t = [s; ""] ->
            cleanRooted ("/tasks/" ++ t) = "/tasks/" ++ s).
  { intros t Ht. unfold cleanRooted.
    change (splitSlash ("/tasks/" ++ t)) with ("" :: "tasks" :: splitSlash t).
    destruct Ht as [-> | ->]; cbn [cleanElems String.eqb Ascii.eqb Bool.eqb orb];
      rewrite Hne, Hdot, Hdots; cbn [orb rev app joinRooted fold_right String.append];
      now rewrite append_empty. }
  split.
  - unfold cleanPath. cbn [String.append Ascii.eqb Bool.eqb]. cbv zeta.
    change (String "/" (String "t" (String "a" (String "s" (String "k"
              (String "s" (String "/" s)))))))
      with ("/tasks/" ++ s).
    rewrite (Hnp s (or_introl Hs1)), suffix_after_tasks.
    destruct s; [discriminate|]. now rewrite (plain_no_suffix _ Hfree).
  - unfold cleanPath. cbn [String.append Ascii.eqb Bool.eqb]. cbv zeta.
    change (String "/" (String "t" (String "a" (String "s" (String "k"
              (String "s" (String "/" (s ++ "/"))))))))
      with ("/tasks/" ++ (s ++ "/")).
    rewrite (Hnp (s ++ "/") (or_intror Hs2)), suffix_after_tasks.
    rewrite slash_suffix.
    replace (match s ++ "/" with EmptyString => true | String _ _ => true end)
      with true by (now destruct s).
    reflexivity.
Qed.

(** A path under [/tasks/] whose id parses is in canonical form. *)
Lemma clean_id_path (p : string) (id : Z) :
  HasPrefix p "/tasks/" = true -> extractID p "/tasks/" = Some id ->
  cleanPath p = p.
Proof.
  intros Hp Hid. unfold extractID in Hid. cbv zeta in Hid.
  rewrite (HasPrefix_split _ _ Hp).
  set (s0 := TrimPrefix p "/tasks/") in *. clearbody s0.
  destruct (Atoi_plain _ _ Hid) as (Hfree & Hne & Hdot & Hdots).
  destruct (clean_plain_path _ Hfree Hne Hdot Hdots) as [H1 H2].
  destruct (HasSuffix s0 "/") eqn:Hs.
  - rewrite (HasSuffix_split _ Hs). exact H2.
  - rewrite (TrimSuffix_none _ _ Hs) in H1. exact H1.
Qed.

(** ** Running the handlers *)

Ltac run :=
  unfold routes, tasksCollection, tasksResource, health,
    handleListTasks, handleCreateTask, handleGetTask, handleUpdateTask,
    handleDeleteTask, querySelectAll, queryRowSelect, queryRowInsert,
    execUpdateTitle, execUpdateDone, execDelete, roundTrip, nextStream,
    getTasks, putTasks, nextval, logPrintf, bind, ret, errOf;
  cbn [fst snd tasks tasks_id_seq outage streams issued logged].

Ltac step :=
  cbv beta iota zeta;
  cbn [fst snd tasks tasks_id_seq outage streams issued logged].

Ltac outcomes :=
  repeat match goal with
    | |- context [hd false ?l] => destruct (hd false l); step
    end;
  repeat match goal with
    | |- context [match find ?f ?l with _ => _ end] =>
        destruct (find f l); step
    end;
  repeat match goal with
    | |- context [match Scan ?x with _ => _ end] => destruct (Scan x); step
    end.


Lemma writeError_shape (st : Z) (msg : string) :
  writeError st msg =
  {| status := st; content_type := Some "application/json";
     body := JsonBody (JObj [("error", JStr msg)]) |}.
Proof. reflexivity. Qed.

(** ** What the mux does with a path *)

Lemma clean_not_redirected (r : Request) :
  cleanPath (URLPath r) = URLPath r -> redirected r = false.
Proof.
  intros H. unfold redirected. rewrite H, String.eqb_refl.
  now rewrite andb_false_r.
Qed.

Lemma routes_redirect (r : Request) (w : World) :
  redirected r = true ->
  routes r w = (redirect r (cleanPath (URLPath r)), w).
Proof. intros H. unfold routes. now rewrite H. Qed.

(** A request the mux does not redirect reaches, under [/tasks/], the
    resource handler. *)
Lemma routes_handed (r : Request) (w : World) :
  redirected r = false -> HasPrefix (URLPath r) "/tasks/" = true ->
  routes r w = tasksResource r w.
Proof.
  intros Hr H. unfold routes.
  now rewrite Hr, (prefixed_not_collection _ H), H.
Qed.

Lemma id_not_redirected (r : Request) (id : Z) :
  HasPrefix (URLPath r) "/tasks/" = true ->
  extractID (URLPath r) "/tasks/" = Some id ->
  redirected r = false.
Proof.
  intros Hp Hid. apply clean_not_redirected. exact (clean_id_path _ _ Hp Hid).
Qed.

(** So does every request whose id parses. *)
Lemma routes_resource (r : Request) (w : World) (id : Z) :
  HasPrefix (URLPath r) "/tasks/" = true ->
  extractID (URLPath r) "/tasks/" = Some id ->
  routes r w = tasksResource r w.
Proof.
  intros Hp Hid. apply routes_handed; [|exact Hp].
  exact (id_not_redirected _ _ Hp Hid).
Qed.

Lemma routes_collection (r : Request) (w : World) :
  URLPath r = "/tasks" -> routes r w = tasksCollection r w.
Proof.
  intros Hp. unfold routes.
  rewrite (clean_not_redirected r) by (now rewrite Hp).
  now rewrite Hp.
Qed.

(** The resource handlers read the path through [extractID] only. *)
Lemma tasksResource_by_id (r r' : Request) (w : World) :
  Method r = Method r' -> Body r = Body r' ->
  extractID (URLPath r) "/tasks/" = extractID (URLPath r') "/tasks/" ->
  tasksResource r w = tasksResource r' w.
Proof.
  intros Hm Hb Hid.
  unfold tasksResource, handleGetTask, handleUpdateTask, handleDeleteTask.
  now rewrite Hm, Hb, Hid.
Qed.

(** A path whose id does not parse is refused before any round trip. *)
Lemma invalid_id_refused (r : Request) (w : World) :
  redirected r = false ->
  HasPrefix (URLPath r) "/tasks/" = true ->
  In (Method r) [MethodGet; MethodPut; MethodDelete] ->
  extractID (URLPath r) "/tasks/" = None ->
  routes r w = (writeError StatusBadRequest "invalid task ID", w).
Proof.
  intros Hr Hp Hm Hid. rewrite (routes_handed _ _ Hr Hp).
  unfold tasksResource, handleGetTask, handleUpdateTask, handleDeleteTask.
  rewrite Hid.
  destruct Hm as [<-|[<-|[<-|[]]]]; reflexivity.
Qed.

(** A path [/tasks/{id}] whose id is one segment other than [.] and [..]
    is in canonical form. *)
Lemma segment_not_redirected (r : Request) (s : string) :
  URLPath r = "/tasks/" ++ s ->
  slashFree s = true -> s <> "." -> s <> ".." ->
  redirected r = false /\ HasPrefix (URLPath r) "/tasks/" = true.
Proof.
  intros Hp Hfree Hdot Hdots. rewrite Hp. split; [|apply HasPrefix_app].
  apply clean_not_redirected. rewrite Hp.
  destruct (String.eqb_spec s "") as [->|Hne]; [reflexivity|].
  apply clean_plain_path; [exact Hfree | | |]; now apply String.eqb_neq.
Qed.

(** The statements a PUT sends once its id parsed and its body decoded:
    the writes of the fields that are present, then at most the
    re-fetch. *)
Lemma update_trace
  (r : Request) (w : World) (id : Z) (req : UpdateTaskRequest) :
  Method r = MethodPut ->
  HasPrefix (URLPath r) "/tasks/" = true ->
  extractID (URLPath r) "/tasks/" = Some id ->
  asUpdateTaskRequest (Body r) = Some req ->
  exists refetch,
    issued (snd (routes r w))
    = (issued w ++ fieldWrites id req ++ refetch)%list
    /\ (refetch = [] \/ refetch = [SelectByID id]).
Proof.
  intros Hm Hp Hid Hb. rewrite (routes_resource _ _ _ Hp Hid).
  unfold tasksResource. rewrite Hm.
  cbn [String.eqb Ascii.eqb Bool.eqb MethodGet MethodPut].
  unfold handleUpdateTask. rewrite Hid, Hb.
  destruct req as [[title|] [done|]]; unfold fieldWrites;
    cbn [up_Title up_Done app]; run; outcomes; eexists;
    (split; [rewrite <- ?app_assoc; cbn [app]; reflexivity | auto]).
Qed.

(** ** The router *)

(** C3, as the code has it: on [/tasks] every method other than GET and
    POST, and on [/tasks/{id}] every method other than GET, PUT and
    DELETE, is answered 405 with the body
    [{"error": "method not allowed"}] and without any round trip to the
    datastore: so it is for every path under [/tasks/] that the mux does
    not redirect, those with an id that is one segment other than [.] and
    [..] and those with an id that parses among them; [/health] has no
    method switch and answers 200 with [{"status": "ok"}] whatever the
    method. *)
Theorem method_not_allowed (r : Request) (w : World) :
  (URLPath r = "/tasks" ->
   Method r <> MethodGet -> Method r <> MethodPost ->
   routes r w = (writeError StatusMethodNotAllowed "method not allowed", w))
  /\
  (HasPrefix (URLPath r) "/tasks/" = true ->
   redirected r = false
   \/ (exists s, URLPath r = "/tasks/" ++ s /\ slashFree s = true
                 /\ s <> "." /\ s <> "..")
   \/ (exists id, extractID (URLPath r) "/tasks/" = Some id) ->
   Method r <> MethodGet -> Method r <> MethodPut ->
   Method r <> MethodDelete ->
   routes r w = (writeError StatusMethodNotAllowed "method not allowed", w))
  /\
  (URLPath r = "/health" ->
   routes r w = (writeJSON StatusOK [("status", "ok")], w)).
Proof.
  split; [|split].
  - intros Hp Hg Hpost. rewrite (routes_collection _ _ Hp).
    unfold tasksCollection.
    apply String.eqb_neq in Hg, Hpost. now rewrite Hg, Hpost.
  - intros Hp Hhanded Hg Hput Hdel.
    assert (redirected r = false) as Hr.
    { destruct Hhanded as [H|[(s & Hs & Hfree & Hdot & Hdots)|[id Hid]]].
      - exact H.
      - exact (proj1 (segment_not_redirected r s Hs Hfree Hdot Hdots)).
      - exact (id_not_redirected _ _ Hp Hid). }
    rewrite (routes_handed _ _ Hr Hp). unfold tasksResource.
    apply String.eqb_neq in Hg, Hput, Hdel. now rewrite Hg, Hput, Hdel.
  - intros Hp. unfold routes.
    rewrite (clean_not_redirected r) by (now rewrite Hp).
    now rewrite Hp.
Qed.

Lemma method_not_allowed_witness :
  routes {| Method := "PATCH"; URLPath := "/tasks"; Body := noBody |} seeded
  = (writeError StatusMethodNotAllowed "method not allowed", seeded)
  /\
  routes {| Method := "POST"; URLPath := "/tasks/1"; Body := noBody |} seeded
  = (writeError StatusMethodNotAllowed "method not allowed", seeded)
  /\
  routes {| Method := "PATCH"; URLPath := "/tasks/abc"; Body := noBody |}
    seeded
  = (writeError StatusMethodNotAllowed "method not allowed", seeded)
  /\
  routes {| Method := "DELETE"; URLPath := "/health"; Body := noBody |} seeded
  = (writeJSON StatusOK [("status", "ok")], seeded).
Proof.
  split; [|split; [|split]].
  - apply (proj1 (method_not_allowed
             {| Method := "PATCH"; URLPath := "/tasks"; Body := noBody |}
             seeded));
      [reflexivity | discriminate | discriminate].
  - apply (proj1 (proj2 (method_not_allowed
             {| Method := "POST"; URLPath := "/tasks/1"; Body := noBody |}
             seeded)));
      [reflexivity | right; right; exists 1; reflexivity
      | discriminate | discriminate | discriminate].
  - apply (proj1 (proj2 (method_not_allowed
             {| Method := "PATCH"; URLPath := "/tasks/abc"; Body := noBody |}
             seeded)));
      [reflexivity
      | right; left; exists "abc"; repeat split; discriminate
      | discriminate | discriminate | discriminate].
  - apply (proj2 (proj2 (method_not_allowed
             {| Method := "DELETE"; URLPath := "/health"; Body := noBody |}
             seeded))).
    reflexivity.
Defined.

(** C3 as stated fails on [/health]: a POST there is answered 200, not
    405. *)
Lemma health_answers_every_method :
  "POST" <> MethodGet /\
  routes {| Method := "POST"; URLPath := "/health"; Body := noBody |} seeded
  = ({| status := 200; content_type := Some "application/json";
        body := JsonBody (JObj [("status", JStr "ok")]) |}, seeded) /\
  200 <> StatusMethodNotAllowed.
Proof. repeat split; discriminate. Qed.

(** ** The id segment *)

(** C4, as the code has it: for GET, PUT and DELETE on a path under
    [/tasks/] that the mux hands to the handler, a segment that
    [extractID] cannot parse is answered 400 with
    [{"error": "invalid task ID"}] and no round trip to the datastore.
    Every segment it parses, an integer of the range of [int], zero and
    the negative ones among them, is accepted: a GET sends the lookup of
    that id to the datastore and a DELETE the delete of that id; a PUT
    goes on to its body, answers 400 with ["invalid JSON body"] and sends
    nothing if it does not decode, and sends its writes for that id if it
    does; none of them answers it with ["invalid task ID"]. *)
Theorem id_segment_check (r : Request) (w : World) :
  HasPrefix (URLPath r) "/tasks/" = true ->
  In (Method r) [MethodGet; MethodPut; MethodDelete] ->
  (redirected r = false -> extractID (URLPath r) "/tasks/" = None ->
   routes r w = (writeError StatusBadRequest "invalid task ID", w))
  /\
  (forall id, extractID (URLPath r) "/tasks/" = Some id ->
     minInt <= id <= maxInt
     /\ (Method r = MethodGet ->
         issued (snd (routes r w)) = (issued w ++ [SelectByID id])%list)
     /\ (Method r = MethodDelete ->
         issued (snd (routes r w)) = (issued w ++ [DeleteByID id])%list)
     /\ (Method r = MethodPut ->
         match asUpdateTaskRequest (Body r) with
         | None =>
             routes r w = (writeError StatusBadRequest "invalid JSON body", w)
         | Some req =>
             exists refetch,
               issued (snd (routes r w))
               = (issued w ++ fieldWrites id req ++ refetch)%list
               /\ (refetch = [] \/ refetch = [SelectByID id])
         end)
     /\ fst (routes r w) <> writeError StatusBadRequest "invalid task ID")
  /\
  extractID "/tasks/0" "/tasks/" = Some 0
  /\
  extractID "/tasks/-5" "/tasks/" = Some (-5).
Proof.
  intros Hp Hm. split; [|split; [|split; reflexivity]].
  - intros Hr Hid. now apply invalid_id_refused.
  - intros id Hid. split; [|split; [|split; [|split]]].
    + apply Atoi_fits in Hid. unfold fitsInt in Hid.
      apply andb_true_iff in Hid as [H1 H2].
      apply Z.leb_le in H1, H2. lia.
    + intros Hg. rewrite (routes_resource _ _ _ Hp Hid).
      unfold tasksResource. rewrite Hg.
      cbn [String.eqb Ascii.eqb Bool.eqb MethodGet].
      run. rewrite Hid. outcomes; reflexivity.
    + intros Hd. rewrite (routes_resource _ _ _ Hp Hid).
      unfold tasksResource. rewrite Hd.
      cbn [String.eqb Ascii.eqb Bool.eqb MethodGet MethodPut MethodDelete].
      run. rewrite Hid. outcomes;
        repeat match goal with
          | |- context [if ?b then _ else _] => destruct b; step
          end; reflexivity.
    + intros Hput.
      destruct (asUpdateTaskRequest (Body r)) as [req|] eqn:Hb.
      * exact (update_trace r w id req Hput Hp Hid Hb).
      * rewrite (routes_resource _ _ _ Hp Hid).
        unfold tasksResource. rewrite Hput.
        cbn [String.eqb Ascii.eqb Bool.eqb MethodGet MethodPut].
        unfold handleUpdateTask. now rewrite Hid, Hb.
    + rewrite (routes_resource _ _ _ Hp Hid).
      unfold tasksResource.
      destruct Hm as [<-|[<-|[<-|[]]]]; run; rewrite Hid;
        repeat match goal with
          | |- context [match ?x with _ => _ end] => destruct x; cbn
          end;
        discriminate.
Qed.

Lemma id_segment_check_witness :
  routes {| Method := "GET"; URLPath := "/tasks/abc"; Body := noBody |} seeded
  = (writeError StatusBadRequest "invalid task ID", seeded)
  /\
  issued (snd (routes {| Method := "DELETE"; URLPath := "/tasks/-5";
                         Body := noBody |} seeded))
  = [DeleteByID (-5)].
Proof.
  split.
  - apply (proj1 (id_segment_check
                    {| Method := "GET"; URLPath := "/tasks/abc";
                       Body := noBody |} seeded
                    eq_refl (or_introl eq_refl))); reflexivity.
  - apply (proj1 (proj2 (id_segment_check
                    {| Method := "DELETE"; URLPath := "/tasks/-5";
                       Body := noBody |} seeded
                    eq_refl (or_intror (or_intror (or_introl eq_refl)))))
             (-5) eq_refl).
    reflexivity.
Defined.

(** C4 as stated fails at zero: the segment [0] is not a positive integer,
    yet it is not answered 400; the lookup is sent to the datastore and the
    answer is 404. *)
Lemma zero_id_reaches_datastore :
  extractID "/tasks/0" "/tasks/" = Some 0 /\
  ~ 0 < 0 /\
  routes {| Method := "GET"; URLPath := "/tasks/0"; Body := noBody |} seeded
  = ({| status := 404; content_type := Some "application/json";
        body := JsonBody (JObj [("error", JStr "task 0 not found")]) |},
     {| tasks := tasks seeded; tasks_id_seq := 3; outage := [];
        streams := []; issued := [SelectByID 0]; logged := [] |}).
Proof. repeat split. lia. Qed.

(** ** The trailing slash *)

(** C10, as the code has it: one trailing slash, and only one, is removed
    before the id is parsed: the id of [/tasks/s/] is what [Atoi] makes
    of [s].  When [s] spells an id, [/tasks/s/] and [/tasks/s] get the
    same answer and address the task of that id: a GET whose lookup
    succeeds returns the record stored under it, a DELETE sends the
    delete of it; so for [/tasks/7/] and [/tasks/7].  On a path the mux
    hands to the handler, when what is left after the removal is not an
    integer, as for [/tasks/7/x], GET, PUT and DELETE are answered 400
    with [{"error": "invalid task ID"}].  A path with a doubled slash
    such as [/tasks/7//] does not reach the handler: the mux redirects it
    to [/tasks/7/]. *)
Theorem one_trailing_slash
  (m : string) (b : RequestBody) (s : string) (w : World) :
  extractID ("/tasks/" ++ s ++ "/") "/tasks/" = Atoi s
  /\
  (forall id, Atoi s = Some id ->
     routes {| Method := m; URLPath := "/tasks/" ++ s ++ "/"; Body := b |} w
     = routes {| Method := m; URLPath := "/tasks/" ++ s; Body := b |} w
     /\ extractID ("/tasks/" ++ s) "/tasks/" = Some id
     /\ (m = MethodGet -> hd false (outage w) = false ->
         forall row t,
           find (hasID id) (tasks w) = Some row -> Scan row = Ok t ->
           fst (routes {| Method := m; URLPath := "/tasks/" ++ s ++ "/";
                          Body := b |} w)
           = writeJSON StatusOK t /\ ID t = id)
     /\ (m = MethodDelete ->
         issued (snd (routes {| Method := m;
                                URLPath := "/tasks/" ++ s ++ "/";
                                Body := b |} w))
         = (issued w ++ [DeleteByID id])%list))
  /\
  (In m [MethodGet; MethodPut; MethodDelete] ->
   redirected {| Method := m; URLPath := "/tasks/" ++ s; Body := b |}
   = false ->
   Atoi (TrimSuffix s "/") = None ->
   routes {| Method := m; URLPath := "/tasks/" ++ s; Body := b |} w
   = (writeError StatusBadRequest "invalid task ID", w))
  /\
  (In m [MethodGet; MethodPut; MethodDelete] ->
   routes {| Method := m; URLPath := "/tasks/7/x"; Body := b |} w
   = (writeError StatusBadRequest "invalid task ID", w))
  /\
  (m <> "CONNECT" ->
   routes {| Method := m; URLPath := "/tasks/7//"; Body := b |} w
   = (redirect {| Method := m; URLPath := "/tasks/7//"; Body := b |}
        "/tasks/7/", w)).
Proof.
  assert (Hslash : extractID ("/tasks/" ++ s ++ "/") "/tasks/" = Atoi s)
    by (now rewrite extractID_tasks, TrimSuffix_slash).
  split; [exact Hslash|]. split; [|split; [|split]].
  - intros id Hid.
    destruct (Atoi_plain _ _ Hid) as (Hfree & _).
    assert (Hplain : extractID ("/tasks/" ++ s) "/tasks/" = Some id).
    { rewrite extractID_tasks, TrimSuffix_none; [exact Hid|].
      now apply plain_no_suffix. }
    rewrite Hid in Hslash.
    assert (Hsame :
      routes {| Method := m; URLPath := "/tasks/" ++ s ++ "/"; Body := b |} w
      = routes {| Method := m; URLPath := "/tasks/" ++ s; Body := b |} w).
    { rewrite (routes_resource _ w id) by (cbn [URLPath];
        first [apply HasPrefix_app | exact Hslash]).
      rewrite (routes_resource
                 {| Method := m; URLPath := "/tasks/" ++ s; Body := b |} w id)
        by (cbn [URLPath]; first [apply HasPrefix_app | exact Hplain]).
      apply tasksResource_by_id; try reflexivity.
      cbn [URLPath]. now rewrite Hslash, Hplain. }
    split; [exact Hsame|]. split; [exact Hplain|]. split.
    + intros -> Hup row t Hfind Hscan.
      rewrite (routes_resource _ w id) by (cbn [URLPath];
        first [apply HasPrefix_app | exact Hslash]).
      unfold tasksResource. cbn [Method String.eqb Ascii.eqb Bool.eqb MethodGet].
      run. cbn [URLPath]. rewrite Hslash, Hup. step.
      rewrite Hfind, Hscan. split; [reflexivity|].
      unfold Scan in Hscan. destruct (r_user_id row); [|discriminate].
      destruct (r_done row); [|discriminate].
      injection Hscan as <-. cbn [ID].
      apply find_some in Hfind as [_ Hrow]. unfold hasID in Hrow.
      now apply Z.eqb_eq.
    + intros ->.
      rewrite (routes_resource _ w id) by (cbn [URLPath];
        first [apply HasPrefix_app | exact Hslash]).
      unfold tasksResource.
      cbn [Method String.eqb Ascii.eqb Bool.eqb MethodGet MethodPut
           MethodDelete].
      run. cbn [URLPath]. rewrite Hslash. outcomes;
        repeat match goal with
          | |- context [if ?c then _ else _] => destruct c; step
          end; reflexivity.
  - intros Hm Hr Hbad. apply invalid_id_refused; cbn [URLPath Method].
    + exact Hr.
    + apply HasPrefix_app.
    + exact Hm.
    + now rewrite extractID_tasks.
  - intros Hm. apply invalid_id_refused; cbn [URLPath Method].
    + unfold redirected. cbn [URLPath].
      replace (cleanPath "/tasks/7/x" =? "/tasks/7/x")%string with true
        by reflexivity.
      now rewrite andb_false_r.
    + reflexivity.
    + exact Hm.
    + reflexivity.
  - intros Hm. apply routes_redirect. unfold redirected. cbn [Method URLPath].
    apply String.eqb_neq in Hm. rewrite Hm. reflexivity.
Qed.

Lemma one_trailing_slash_witness :
  fst (routes {| Method := "GET"; URLPath := "/tasks/2/"; Body := noBody |}
         seeded)
  = writeJSON StatusOK
      {| ID := 2; UserID := 1; Title := "Build REST API"; Done := false |}
  /\
  routes {| Method := "GET"; URLPath := "/tasks/2/x"; Body := noBody |} seeded
  = (writeError StatusBadRequest "invalid task ID", seeded).
Proof.
  split.
  - apply (proj1 (proj2 (proj2 (proj1 (proj2
             (one_trailing_slash "GET" noBody "2" seeded)) 2 eq_refl)))
             eq_refl eq_refl
             {| r_id := 2; r_user_id := Some 1; r_title := "Build REST API";
                r_done := Some false |}
             {| ID := 2; UserID := 1; Title := "Build REST API";
                Done := false |} eq_refl eq_refl).
  - apply (proj1 (proj2 (proj2
             (one_trailing_slash "GET" noBody "2/x" seeded)))).
    + left. reflexivity.
    + reflexivity.
    + reflexivity.
Defined.

(** C10 as stated fails at its own example: a GET on [/tasks/7//] is not
    answered 400; the mux redirects it to [/tasks/7/] before the handler
    runs. *)
Lemma doubled_slash_is_redirected :
  routes {| Method := "GET"; URLPath := "/tasks/7//"; Body := noBody |} seeded
  = ({| status := 307; content_type := Some "text/html; charset=utf-8";
        body := RedirectTo "/tasks/7/" |}, seeded)
  /\ 307 <> StatusBadRequest.
Proof. split; [reflexivity | discriminate]. Qed.

(** ** Rows and ids *)

Lemma rowsAffected_zero (id : Z) (rs : list Row) :
  rowsAffected id rs = 0 <-> existsb (hasID id) rs = false.
Proof.
  unfold rowsAffected.
  induction rs as [|x rs IH]; simpl; [tauto|].
  destruct (hasID id x); simpl.
  - split; [lia | discriminate].
  - exact IH.
Qed.

Lemma delete_absent (id : Z) (rs : list Row) :
  existsb (hasID id) rs = false ->
  filter (fun r => negb (hasID id r)) rs = rs.
Proof.
  induction rs as [|x rs IH]; simpl; [reflexivity|].
  destruct (hasID id x); simpl; [discriminate|].
  intros H. now rewrite IH.
Qed.

Lemma delete_removes (id : Z) (rs : list Row) :
  existsb (hasID id) (filter (fun r => negb (hasID id r)) rs) = false.
Proof.
  induction rs as [|x rs IH]; simpl; [reflexivity|].
  destruct (hasID id x) eqn:E; simpl; [exact IH|].
  now rewrite E.
Qed.

Lemma find_inserted (id : Z) (rs : list Row) (r : Row) :
  existsb (hasID id) rs = false -> hasID id r = true ->
  find (hasID id) (rs ++ [r]) = Some r.
Proof.
  intros Hfree Hr.
  induction rs as [|x rs IH]; simpl in *.
  - now rewrite Hr.
  - destruct (hasID id x); [discriminate|]. now apply IH.
Qed.

(** ** Create *)

(** C6: a POST on [/tasks] whose body does not decode is answered 400;
    one whose body decodes with an empty title is answered 400 with
    ["title is required"], and one with a title but a zero [user_id] is
    answered 400 with ["user_id is required"]; in the three cases the
    world is left as it was, so no statement was sent to the datastore. *)
Theorem create_validation (r : Request) (w : World) :
  Method r = MethodPost -> URLPath r = "/tasks" ->
  (asCreateTaskRequest (Body r) = None ->
   routes r w = (writeError StatusBadRequest "invalid JSON body", w))
  /\
  (forall req, asCreateTaskRequest (Body r) = Some req ->
     cr_Title req = "" ->
     routes r w = (writeError StatusBadRequest "title is required", w))
  /\
  (forall req, asCreateTaskRequest (Body r) = Some req ->
     cr_Title req <> "" -> cr_UserID req = 0 ->
     routes r w = (writeError StatusBadRequest "user_id is required", w)).
Proof.
  intros Hm Hp.
  rewrite (routes_collection _ _ Hp).
  unfold tasksCollection, handleCreateTask. rewrite Hm.
  cbn [String.eqb Ascii.eqb Bool.eqb MethodPost MethodGet].
  split; [|split].
  - now intros ->.
  - intros req -> ->. reflexivity.
  - intros req -> Ht ->. apply String.eqb_neq in Ht. now rewrite Ht.
Qed.

Lemma create_validation_witness :
  routes {| Method := "POST"; URLPath := "/tasks"; Body := noBody |} seeded
  = (writeError StatusBadRequest "invalid JSON body", seeded)
  /\
  routes {| Method := "POST"; URLPath := "/tasks";
            Body := createBody {| cr_UserID := 1; cr_Title := "" |} |} seeded
  = (writeError StatusBadRequest "title is required", seeded)
  /\
  routes {| Method := "POST"; URLPath := "/tasks";
            Body := createBody {| cr_UserID := 0; cr_Title := "x" |} |} seeded
  = (writeError StatusBadRequest "user_id is required", seeded).
Proof.
  split; [|split].
  - apply (proj1 (create_validation
             {| Method := "POST"; URLPath := "/tasks"; Body := noBody |}
             seeded eq_refl eq_refl)).
    reflexivity.
  - apply (proj1 (proj2 (create_validation
             {| Method := "POST"; URLPath := "/tasks";
                Body := createBody {| cr_UserID := 1; cr_Title := "" |} |}
             seeded eq_refl eq_refl))
             {| cr_UserID := 1; cr_Title := "" |}); reflexivity.
  - apply (proj2 (proj2 (create_validation
             {| Method := "POST"; URLPath := "/tasks";
                Body := createBody {| cr_UserID := 0; cr_Title := "x" |} |}
             seeded eq_refl eq_refl))
             {| cr_UserID := 0; cr_Title := "x" |});
      [reflexivity | discriminate | reflexivity].
Defined.

(** An insert succeeds when its round trip does and the next value of the
    sequence is not taken. *)
Lemma insert_succeeds (user_id : Z) (title : string) (w : World) :
  hd false (outage w) = false ->
  existsb (hasID (tasks_id_seq w)) (tasks w) = false ->
  exists w',
    queryRowInsert user_id title w
    = (Ok {| ID := tasks_id_seq w; UserID := user_id; Title := title;
             Done := false |}, w').
Proof.
  intros Hup Hfree. run. rewrite Hup. step. rewrite Hfree.
  eexists. reflexivity.
Qed.

Lemma insert_result (user_id : Z) (title : string) (w w' : World) (t : Task) :
  queryRowInsert user_id title w = (Ok t, w') ->
  t = {| ID := tasks_id_seq w; UserID := user_id; Title := title;
         Done := false |}
  /\ existsb (hasID (tasks_id_seq w)) (tasks w) = false
  /\ tasks w' = (tasks w ++ [ {| r_id := tasks_id_seq w;
                                 r_user_id := Some user_id;
                                 r_title := title;
                                 r_done := Some false |} ])%list.
Proof.
  run. destruct (hd false (outage w)); [discriminate|]. step.
  destruct (existsb _ _) eqn:Hfree; [discriminate|].
  intros [= <- <-]. cbn. auto.
Qed.

(** C7: a POST on [/tasks] that passes validation and whose insert
    succeeds is answered 201 with the record the insert returned: its id
    is the value the datastore's sequence generated, [user_id] and [title]
    are those of the request, [done] is false, and it is the row now
    stored under that id. *)
Theorem create_success
  (r : Request) (w w' : World) (req : CreateTaskRequest) (task : Task) :
  Method r = MethodPost -> URLPath r = "/tasks" ->
  asCreateTaskRequest (Body r) = Some req ->
  cr_Title req <> "" -> cr_UserID req <> 0 ->
  queryRowInsert (cr_UserID req) (cr_Title req) w = (Ok task, w') ->
  routes r w
  = ({| status := 201; content_type := Some "application/json";
        body := JsonBody
                  (JObj [("id", JNum (tasks_id_seq w));
                         ("user_id", JNum (cr_UserID req));
                         ("title", JStr (cr_Title req));
                         ("done", JBool false)]) |}, w')
  /\ ID task = tasks_id_seq w
  /\ Done task = false
  /\ option_map Scan (find (hasID (ID task)) (tasks w')) = Some (Ok task).
Proof.
  intros Hm Hp Hb Ht Hu Hins.
  destruct (insert_result _ _ _ _ _ Hins) as (-> & Hfree & Hrows).
  split; [|split; [|split]]; try reflexivity.
  - rewrite (routes_collection _ _ Hp).
    unfold tasksCollection, handleCreateTask. rewrite Hm, Hb.
    cbn [String.eqb Ascii.eqb Bool.eqb MethodPost MethodGet].
    apply String.eqb_neq in Ht. apply Z.eqb_neq in Hu.
    rewrite Ht, Hu. unfold bind at 1. rewrite Hins. reflexivity.
  - cbn [ID]. rewrite Hrows.
    rewrite (find_inserted _ _ _ Hfree); [reflexivity|].
    unfold hasID. cbn. apply Z.eqb_refl.
Qed.

Lemma create_success_witness :
  routes {| Method := "POST"; URLPath := "/tasks";
            Body := createBody {| cr_UserID := 1;
                                  cr_Title := "Write spec" |} |} seeded
  = ({| status := 201; content_type := Some "application/json";
        body := JsonBody
                  (JObj [("id", JNum 3); ("user_id", JNum 1);
                         ("title", JStr "Write spec");
                         ("done", JBool false)]) |},
     snd (queryRowInsert 1 "Write spec" seeded)).
Proof.
  apply (proj1 (create_success
    {| Method := "POST"; URLPath := "/tasks";
       Body := createBody {| cr_UserID := 1; cr_Title := "Write spec" |} |}
    seeded (snd (queryRowInsert 1 "Write spec" seeded))
    {| cr_UserID := 1; cr_Title := "Write spec" |}
    {| ID := 3; UserID := 1; Title := "Write spec"; Done := false |}
    eq_refl eq_refl eq_refl
    ltac:(discriminate) ltac:(discriminate) eq_refl)).
Defined.

(** ** Delete *)

(** C8: a DELETE with a well-formed id is answered 500 when the delete's
    round trip fails (the table is left as it was), 404 with
    [{"error": "task {id} not found"}] when the delete affects no row,
    which is when no row has that id, and 204 with no body when it
    affects a row, after which no row has that id. *)
Theorem delete_outcomes (r : Request) (w : World) (id : Z) :
  Method r = MethodDelete ->
  HasPrefix (URLPath r) "/tasks/" = true ->
  extractID (URLPath r) "/tasks/" = Some id ->
  (hd false (outage w) = true ->
   fst (routes r w)
   = writeError StatusInternalServerError "failed to delete task"
   /\ tasks (snd (routes r w)) = tasks w)
  /\
  (hd false (outage w) = false -> rowsAffected id (tasks w) = 0 ->
   fst (routes r w)
   = {| status := 404; content_type := Some "application/json";
        body := JsonBody
                  (JObj [("error",
                          JStr ("task " ++ itoa id ++ " not found"))]) |}
   /\ tasks (snd (routes r w)) = tasks w)
  /\
  (hd false (outage w) = false -> rowsAffected id (tasks w) <> 0 ->
   fst (routes r w)
   = {| status := 204; content_type := None; body := NoBody |}
   /\ existsb (hasID id) (tasks (snd (routes r w))) = false)
  /\
  (rowsAffected id (tasks w) = 0 <->
   forall row, In row (tasks w) -> r_id row <> id).
Proof.
  intros Hm Hp Hid. rewrite (routes_resource _ _ _ Hp Hid).
  unfold tasksResource. rewrite Hm.
  cbn [String.eqb Ascii.eqb Bool.eqb MethodGet MethodPut MethodDelete].
  run. rewrite Hid.
  split; [|split; [|split]].
  - intros ->. split; reflexivity.
  - intros -> Hz. step. rewrite Hz. cbn.
    split; [reflexivity|].
    apply delete_absent. now apply rowsAffected_zero.
  - intros -> Hnz. step. apply Z.eqb_neq in Hnz. rewrite Hnz. cbn.
    split; [reflexivity|]. apply delete_removes.
  - rewrite rowsAffected_zero. split.
    + intros Hnone row Hin Heq.
      assert (existsb (hasID id) (tasks w) = true) as Hex.
      { apply existsb_exists. exists row. split; [exact Hin|].
        unfold hasID. now apply Z.eqb_eq. }
      congruence.
    + intros Hall. destruct (existsb _ _) eqn:Hex; [|reflexivity].
      apply existsb_exists in Hex as (row & Hin & Hrow).
      unfold hasID in Hrow. apply Z.eqb_eq in Hrow.
      now destruct (Hall row Hin).
Qed.

Lemma delete_outcomes_witness :
  fst (routes {| Method := "DELETE"; URLPath := "/tasks/2"; Body := noBody |}
         seeded)
  = {| status := 204; content_type := None; body := NoBody |}
  /\
  fst (routes {| Method := "DELETE"; URLPath := "/tasks/9"; Body := noBody |}
         seeded)
  = {| status := 404; content_type := Some "application/json";
       body := JsonBody (JObj [("error", JStr "task 9 not found")]) |}
  /\
  fst (routes {| Method := "DELETE"; URLPath := "/tasks/2"; Body := noBody |}
         seededDown)
  = writeError StatusInternalServerError "failed to delete task".
Proof.
  split; [|split].
  - apply (proj1 (proj2 (proj2 (delete_outcomes
      {| Method := "DELETE"; URLPath := "/tasks/2"; Body := noBody |}
      seeded 2 eq_refl eq_refl eq_refl)))); [reflexivity | discriminate].
  - apply (proj1 (proj2 (delete_outcomes
      {| Method := "DELETE"; URLPath := "/tasks/9"; Body := noBody |}
      seeded 9 eq_refl eq_refl eq_refl))); reflexivity.
  - apply (proj1 (delete_outcomes
      {| Method := "DELETE"; URLPath := "/tasks/2"; Body := noBody |}
      seededDown 2 eq_refl eq_refl eq_refl)). reflexivity.
Defined.

(** ** Get *)

(** When the lookup's round trip succeeds, a GET is answered 404 if no row
    has the id and 200 with the record if one has. *)
Lemma get_found_or_absent (r : Request) (w : World) (id : Z) :
  Method r = MethodGet ->
  HasPrefix (URLPath r) "/tasks/" = true ->
  extractID (URLPath r) "/tasks/" = Some id ->
  hd false (outage w) = false ->
  (find (hasID id) (tasks w) = None ->
   fst (routes r w) = writeError StatusNotFound (notFoundMsg id))
  /\
  (forall row t, find (hasID id) (tasks w) = Some row -> Scan row = Ok t ->
     fst (routes r w) = writeJSON StatusOK t).
Proof.
  intros Hm Hp Hid Hup. rewrite (routes_resource _ _ _ Hp Hid).
  unfold tasksResource. rewrite Hm.
  cbn [String.eqb Ascii.eqb Bool.eqb MethodGet].
  run. rewrite Hid, Hup. step. split.
  - now intros ->.
  - intros row t -> ->. reflexivity.
Qed.

(** C2, what the code does instead: a GET with a well-formed id is never
    answered 500; when the lookup's round trip fails the answer is 404
    with [{"error": "task {id} not found"}], whether or not a row with
    that id exists. *)
Theorem get_hides_lookup_failure (r : Request) (w : World) (id : Z) :
  Method r = MethodGet ->
  HasPrefix (URLPath r) "/tasks/" = true ->
  extractID (URLPath r) "/tasks/" = Some id ->
  status (fst (routes r w)) <> StatusInternalServerError
  /\
  (hd false (outage w) = true ->
   fst (routes r w)
   = {| status := 404; content_type := Some "application/json";
        body := JsonBody
                  (JObj [("error",
                          JStr ("task " ++ itoa id ++ " not found"))]) |}).
Proof.
  intros Hm Hp Hid. rewrite (routes_resource _ _ _ Hp Hid).
  unfold tasksResource. rewrite Hm.
  cbn [String.eqb Ascii.eqb Bool.eqb MethodGet].
  run. rewrite Hid. split.
  - destruct (hd false (outage w)); step; [discriminate|].
    destruct (find _ _) as [row|]; [|discriminate].
    destruct (Scan row); discriminate.
  - intros ->. reflexivity.
Qed.

Lemma get_hides_lookup_failure_witness :
  existsb (hasID 1) (tasks seededDown) = true
  /\
  fst (routes {| Method := "GET"; URLPath := "/tasks/1"; Body := noBody |}
         seededDown)
  = {| status := 404; content_type := Some "application/json";
       body := JsonBody (JObj [("error", JStr "task 1 not found")]) |}.
Proof.
  split; [reflexivity|].
  apply (proj2 (get_hides_lookup_failure
    {| Method := "GET"; URLPath := "/tasks/1"; Body := noBody |}
    seededDown 1 eq_refl eq_refl eq_refl)).
  reflexivity.
Defined.

(** ** Update *)

(** C1, what the code does instead: when a PUT carries both fields, the
    title write fails and the done write succeeds, the error of the first
    write is overwritten by the nil error of the second: both writes and
    the re-fetch are sent, and the answer is 200 or 404, not 500. *)
Theorem update_masks_title_failure
  (r : Request) (w : World) (id : Z) (title : string) (done : bool) :
  Method r = MethodPut ->
  HasPrefix (URLPath r) "/tasks/" = true ->
  extractID (URLPath r) "/tasks/" = Some id ->
  asUpdateTaskRequest (Body r)
  = Some {| up_Title := Some title; up_Done := Some done |} ->
  hd false (outage w) = true ->
  hd false (tl (outage w)) = false ->
  status (fst (routes r w)) <> StatusInternalServerError
  /\ (status (fst (routes r w)) = StatusOK
      \/ status (fst (routes r w)) = StatusNotFound)
  /\ issued (snd (routes r w))
     = (issued w ++ [UpdateTitle title id; UpdateDone done id;
                     SelectByID id])%list
  /\ map r_title (tasks (snd (routes r w))) = map r_title (tasks w).
Proof.
  intros Hm Hp Hid Hb Hfail Hok. rewrite (routes_resource _ _ _ Hp Hid).
  unfold tasksResource. rewrite Hm.
  cbn [String.eqb Ascii.eqb Bool.eqb MethodGet MethodPut].
  run. rewrite Hid, Hb. cbn [up_Title up_Done].
  rewrite Hfail. step. rewrite Hok. step.
  assert (Htitles : map r_title (map (setDone done id) (tasks w))
                    = map r_title (tasks w)).
  { rewrite map_map. apply map_ext. intros x. unfold setDone.
    now destruct (hasID id x). }
  rewrite <- !app_assoc. cbn [app].
  destruct (hd false (tl (tl (outage w)))); step.
  - repeat split; try discriminate; auto.
  - destruct (find _ _) as [row|]; [destruct (Scan row)|];
      cbn; repeat split; try discriminate; auto.
Qed.

Lemma update_masks_title_failure_witness :
  fst (routes {| Method := "PUT"; URLPath := "/tasks/2";
                 Body := updateBody {| up_Title := Some "Ship REST API";
                                       up_Done := Some true |} |}
         seededDown)
  = {| status := 200; content_type := Some "application/json";
       body := JsonBody
                 (JObj [("id", JNum 2); ("user_id", JNum 1);
                        ("title", JStr "Build REST API");
                        ("done", JBool true)]) |}
  /\
  status (fst (routes {| Method := "PUT"; URLPath := "/tasks/2";
                 Body := updateBody {| up_Title := Some "Ship REST API";
                                       up_Done := Some true |} |}
         seededDown)) <> StatusInternalServerError.
Proof.
  split; [reflexivity|].
  apply (proj1 (update_masks_title_failure
    {| Method := "PUT"; URLPath := "/tasks/2";
       Body := updateBody {| up_Title := Some "Ship REST API";
                             up_Done := Some true |} |}
    seededDown 2 "Ship REST API" true
    eq_refl eq_refl eq_refl eq_refl eq_refl eq_refl)).
Defined.

Lemma hasID_setTitle (title : string) (id i : Z) (x : Row) :
  hasID i (setTitle title id x) = hasID i x.
Proof. unfold setTitle, hasID. now destruct (r_id x =? id). Qed.

Lemma hasID_setDone (done : bool) (id i : Z) (x : Row) :
  hasID i (setDone done id x) = hasID i x.
Proof. unfold setDone, hasID. now destruct (r_id x =? id). Qed.

Lemma setTitle_keeps_done (title : string) (id : Z) (rs : list Row) :
  map r_done (map (setTitle title id) rs) = map r_done rs.
Proof.
  rewrite map_map. apply map_ext. intros x. unfold setTitle.
  now destruct (hasID id x).
Qed.

Lemma setDone_keeps_title (done : bool) (id : Z) (rs : list Row) :
  map r_title (map (setDone done id) rs) = map r_title rs.
Proof.
  rewrite map_map. apply map_ext. intros x. unfold setDone.
  now destruct (hasID id x).
Qed.

Lemma find_setDone (done : bool) (id : Z) (rs : list Row) :
  find (hasID id) (map (setDone done id) rs)
  = option_map (setDone done id) (find (hasID id) rs).
Proof.
  induction rs as [|x rs IH]; simpl; [reflexivity|].
  rewrite hasID_setDone. now destruct (hasID id x).
Qed.

Lemma find_setTitle (title : string) (id : Z) (rs : list Row) :
  find (hasID id) (map (setTitle title id) rs)
  = option_map (setTitle title id) (find (hasID id) rs).
Proof.
  induction rs as [|x rs IH]; simpl; [reflexivity|].
  rewrite hasID_setTitle. now destruct (hasID id x).
Qed.

Lemma Scan_setDone (done : bool) (id : Z) (row : Row) (t : Task) :
  hasID id row = true -> Scan row = Ok t ->
  Scan (setDone done id row)
  = Ok {| ID := ID t; UserID := UserID t; Title := Title t; Done := done |}.
Proof.
  unfold Scan, setDone. intros ->.
  destruct (r_user_id row); [|discriminate].
  destruct (r_done row); [|discriminate].
  now intros [= <-].
Qed.

Lemma Scan_setTitle (title : string) (id : Z) (row : Row) (t : Task) :
  hasID id row = true -> Scan row = Ok t ->
  Scan (setTitle title id row)
  = Ok {| ID := ID t; UserID := UserID t; Title := title; Done := Done t |}.
Proof.
  unfold Scan, setTitle. intros ->. cbn.
  destruct (r_user_id row); [|discriminate].
  destruct (r_done row); [|discriminate].
  now intros [= <-].
Qed.

(** C5: a PUT with a well-formed id and a decoded body sends the write of
    each field that is present, and no other write, followed at most by
    the re-fetch.  A body without [title] leaves every stored title as it
    was and a body without [done] every stored [done]; on an existing
    task whose round trips succeed, a body with [done] only is answered
    200 with the new [done] and the old title, and a body with [title]
    only with the new title and the old [done].  The empty body sends no
    write at all, only the re-fetch, leaves the table as it was and, on
    an existing task, is answered 200 with the current record. *)
Theorem update_writes_present_fields
  (r : Request) (w : World) (id : Z) (req : UpdateTaskRequest) :
  Method r = MethodPut ->
  HasPrefix (URLPath r) "/tasks/" = true ->
  extractID (URLPath r) "/tasks/" = Some id ->
  asUpdateTaskRequest (Body r) = Some req ->
  (exists refetch,
     issued (snd (routes r w))
     = (issued w ++ fieldWrites id req ++ refetch)%list
     /\ (refetch = [] \/ refetch = [SelectByID id]))
  /\
  (up_Title req = None ->
   map r_title (tasks (snd (routes r w))) = map r_title (tasks w))
  /\
  (up_Done req = None ->
   map r_done (tasks (snd (routes r w))) = map r_done (tasks w))
  /\
  (forall row t,
     find (hasID id) (tasks w) = Some row -> Scan row = Ok t ->
     hd false (outage w) = false -> hd false (tl (outage w)) = false ->
     (forall done, up_Title req = None -> up_Done req = Some done ->
        fst (routes r w)
        = writeJSON StatusOK {| ID := ID t; UserID := UserID t;
                                Title := Title t; Done := done |})
     /\
     (forall title, up_Title req = Some title -> up_Done req = None ->
        fst (routes r w)
        = writeJSON StatusOK {| ID := ID t; UserID := UserID t;
                                Title := title; Done := Done t |}))
  /\
  (up_Title req = None -> up_Done req = None ->
   tasks (snd (routes r w)) = tasks w
   /\ issued (snd (routes r w)) = (issued w ++ [SelectByID id])%list
   /\ forall row t,
        find (hasID id) (tasks w) = Some row -> Scan row = Ok t ->
        hd false (outage w) = false ->
        fst (routes r w) = writeJSON StatusOK t).
Proof.
  intros Hm Hp Hid Hb. rewrite (routes_resource _ _ _ Hp Hid).
  unfold tasksResource. rewrite Hm.
  cbn [String.eqb Ascii.eqb Bool.eqb MethodGet MethodPut].
  unfold handleUpdateTask. rewrite Hid, Hb.
  destruct req as [[title|] [done|]]; unfold fieldWrites;
    cbn [up_Title up_Done app]; run;
    (split; [|split; [|split; [|split]]]); try discriminate.
  all: lazymatch goal with
    | |- exists _, _ =>
        outcomes; eexists;
        (split; [rewrite <- ?app_assoc; cbn [app]; reflexivity | auto])
    | |- None = None -> map _ _ = _ =>
        intros _; outcomes;
        rewrite ?setDone_keeps_title, ?setTitle_keeps_done; reflexivity
    | |- forall (row : Row) (t : Task), _ =>
        intros row t Hfind Hscan Hup1 Hup2;
        pose proof (find_some _ _ Hfind) as [_ Hrow];
        (split; intros x [=] [=]; subst);
        rewrite Hup1; step; rewrite Hup2; step;
        rewrite ?find_setDone, ?find_setTitle, Hfind; cbn [option_map];
        rewrite ?(Scan_setDone _ _ _ _ Hrow Hscan),
                ?(Scan_setTitle _ _ _ _ Hrow Hscan);
        reflexivity
    | |- None = None -> None = None -> _ =>
        intros _ _; (split; [|split]);
        [ outcomes; reflexivity
        | outcomes; reflexivity
        | intros row t Hfind Hscan Hup1; rewrite Hup1; step;
          rewrite Hfind, Hscan; reflexivity ]
    end.
Qed.

Lemma update_writes_present_fields_witness :
  fst (routes {| Method := "PUT"; URLPath := "/tasks/2";
                 Body := updateBody {| up_Title := None;
                                       up_Done := Some true |} |} seeded)
  = {| status := 200; content_type := Some "application/json";
       body := JsonBody
                 (JObj [("id", JNum 2); ("user_id", JNum 1);
                        ("title", JStr "Build REST API");
                        ("done", JBool true)]) |}
  /\
  (tasks (snd (routes {| Method := "PUT"; URLPath := "/tasks/2";
                         Body := updateBody {| up_Title := None;
                                               up_Done := None |} |} seeded))
   = tasks seeded
   /\
   issued (snd (routes {| Method := "PUT"; URLPath := "/tasks/2";
                          Body := updateBody {| up_Title := None;
                                                up_Done := None |} |} seeded))
   = [SelectByID 2]).
Proof.
  split.
  - apply (proj1 (proj1 (proj2 (proj2 (proj2
      (update_writes_present_fields
         {| Method := "PUT"; URLPath := "/tasks/2";
            Body := updateBody {| up_Title := None;
                                  up_Done := Some true |} |}
         seeded 2 {| up_Title := None; up_Done := Some true |}
         eq_refl eq_refl eq_refl eq_refl))))
      {| r_id := 2; r_user_id := Some 1; r_title := "Build REST API";
         r_done := Some false |}
      {| ID := 2; UserID := 1; Title := "Build REST API"; Done := false |}
      eq_refl eq_refl eq_refl eq_refl) true eq_refl eq_refl).
  - pose proof (proj2 (proj2 (proj2 (proj2
      (update_writes_present_fields
         {| Method := "PUT"; URLPath := "/tasks/2";
            Body := updateBody {| up_Title := None; up_Done := None |} |}
         seeded 2 {| up_Title := None; up_Done := None |}
         eq_refl eq_refl eq_refl eq_refl)))) eq_refl eq_refl)
      as (Htasks & Hissued & _).
    split; [exact Htasks | exact Hissued].
Defined.

(** What the error check of the update handler does catch: the error of
    the last write that is sent is answered 500, before any re-fetch. *)
Lemma update_last_write_failure
  (r : Request) (w : World) (id : Z) (req : UpdateTaskRequest) :
  Method r = MethodPut ->
  HasPrefix (URLPath r) "/tasks/" = true ->
  extractID (URLPath r) "/tasks/" = Some id ->
  asUpdateTaskRequest (Body r) = Some req ->
  fieldWrites id req <> [] ->
  nth (List.length (fieldWrites id req) - 1) (outage w) false = true ->
  fst (routes r w)
  = writeError StatusInternalServerError "failed to update task".
Proof.
  intros Hm Hp Hid Hb Hsome Hfail. rewrite (routes_resource _ _ _ Hp Hid).
  unfold tasksResource. rewrite Hm.
  cbn [String.eqb Ascii.eqb Bool.eqb MethodGet MethodPut].
  unfold handleUpdateTask. rewrite Hid, Hb.
  destruct req as [[title|] [done|]]; unfold fieldWrites in *;
    cbn [up_Title up_Done app List.length Nat.sub] in *; run;
    try congruence.
  - destruct (outage w) as [|a [|b l]]; cbn in *; try discriminate.
    subst b. now destruct a.
  - destruct (outage w) as [|a l]; cbn in *; try discriminate.
    now subst a.
  - destruct (outage w) as [|a l]; cbn in *; try discriminate.
    now subst a.
Qed.

(** ** List *)

Lemma Scan_id (row : Row) (t : Task) : Scan row = Ok t -> ID t = r_id row.
Proof.
  unfold Scan. destruct (r_user_id row); [|discriminate].
  destruct (r_done row); [|discriminate]. now intros [= <-].
Qed.

Lemma scanned_ids (rows : list Row) (ts : list Task) :
  map Scan rows = map Ok ts -> map ID ts = map r_id rows.
Proof.
  revert ts. induction rows as [|x rows IH]; intros [|t ts]; simpl;
    try discriminate; [reflexivity|].
  intros [= Hx Hrest]. now rewrite (Scan_id _ _ Hx), (IH _ Hrest).
Qed.

(** The loop answers 200 only after every row was scanned, and then with
    the slice it started from followed by all of them, in their order. *)
Lemma scanRows_ok (rows : list Row) (acc : list Task) :
  status (scanRows rows (Some acc)) = StatusOK ->
  exists ts,
    map Scan rows = map Ok ts
    /\ scanRows rows (Some acc) = writeJSON StatusOK (Some (acc ++ ts)%list).
Proof.
  revert acc. induction rows as [|x rows IH]; intros acc; simpl.
  - intros _. exists []. now rewrite app_nil_r.
  - destruct (Scan x) as [t|e]; [|discriminate].
    intros H. destruct (IH _ H) as (ts & Hscan & Hres).
    exists (t :: ts). split.
    + simpl. now rewrite Hscan.
    + rewrite Hres. now rewrite <- app_assoc.
Qed.

Lemma scanRows_total (rows : list Row) (acc : list Task) :
  Forall (fun row => exists t, Scan row = Ok t) rows ->
  status (scanRows rows (Some acc)) = StatusOK.
Proof.
  intros H. revert acc.
  induction H as [|x rows [t Ht] _ IH]; intros acc; simpl; [reflexivity|].
  rewrite Ht. apply IH.
Qed.

Lemma scanRows_not_null (rows : list Row) (acc : list Task) :
  body (scanRows rows (Some acc)) <> JsonBody JNull.
Proof.
  revert acc. induction rows as [|x rows IH]; intros acc; simpl.
  - discriminate.
  - destruct (Scan x); [apply IH | discriminate].
Qed.

Lemma sorted_ids (rows : list Row) :
  StronglySorted (fun a b => is_true (RowOrder.leb a b)) rows ->
  StronglySorted Z.le (map r_id rows).
Proof.
  induction 1 as [|a l _ IH Hall]; simpl; constructor; [exact IH|].
  apply Forall_map. revert Hall. apply Forall_impl.
  intros b Hab. unfold RowOrder.leb, is_true in Hab. now apply Z.leb_le.
Qed.

Lemma ORDER_BY_id (rs : list Row) :
  StronglySorted Z.le (map r_id (RowSort.sort rs))
  /\ Permutation rs (RowSort.sort rs).
Proof.
  split; [|apply RowSort.Permuted_sort].
  apply sorted_ids, RowSort.StronglySorted_sort.
  intros a b c. unfold RowOrder.leb, is_true. rewrite !Z.leb_le. lia.
Qed.

Lemma delivered_stored (k : nat) (rs : list Row) (row : Row) :
  In row (firstn k rs) -> In row rs.
Proof.
  revert rs. induction k as [|k IH]; intros [|x rs]; simpl; try tauto.
  intros [H|H]; [now left | right; now apply IH].
Qed.

Lemma scannable_sorted (rs : list Row) (k : nat) :
  Forall (fun row => exists t, Scan row = Ok t) rs ->
  Forall (fun row => exists t, Scan row = Ok t) (firstn k (RowSort.sort rs)).
Proof.
  intros Hall. apply Forall_forall. intros row Hin.
  rewrite Forall_forall in Hall. apply Hall.
  apply delivered_stored in Hin.
  eapply Permutation_in;
    [apply Permutation_sym, RowSort.Permuted_sort | exact Hin].
Qed.

(** When the row stream of the query runs to its end, a GET on [/tasks]
    that is answered 200 carries the JSON array of all stored tasks, each
    stored row once, in ascending order of id.  Whatever the stream does,
    the answer is 200 when the query's round trip succeeds and no stored
    row holds a NULL, the body is [[]] on an empty table and never
    [null], and the table is left as it was. *)
Lemma list_complete (r : Request) (w : World) :
  Method r = MethodGet -> URLPath r = "/tasks" ->
  (hd None (streams w) = None ->
   status (fst (routes r w)) = StatusOK ->
   exists ts,
     fst (routes r w)
     = {| status := 200; content_type := Some "application/json";
          body := JsonBody (JArr (map marshal ts)) |}
     /\ Permutation (map Scan (tasks w)) (map Ok ts)
     /\ StronglySorted Z.le (map ID ts))
  /\
  (hd false (outage w) = false ->
   Forall (fun row => exists t, Scan row = Ok t) (tasks w) ->
   status (fst (routes r w)) = StatusOK)
  /\
  (hd false (outage w) = false -> tasks w = [] ->
   fst (routes r w)
   = {| status := 200; content_type := Some "application/json";
        body := JsonBody (JArr []) |})
  /\ body (fst (routes r w)) <> JsonBody JNull
  /\ tasks (snd (routes r w)) = tasks w.
Proof.
  intros Hm Hp. rewrite (routes_collection _ _ Hp).
  unfold tasksCollection. rewrite Hm.
  cbn [String.eqb Ascii.eqb Bool.eqb MethodGet].
  run.
  destruct (ORDER_BY_id (tasks w)) as [Hsorted Hperm].
  split; [|split; [|split; [|split]]].
  - intros Hs. destruct (hd false (outage w)); step; [discriminate|].
    rewrite Hs. step.
    intros H. destruct (scanRows_ok _ _ H) as (ts & Hscan & Hres).
    exists ts. split; [exact Hres|]. split.
    + rewrite <- Hscan. now apply Permutation_map.
    + now rewrite (scanned_ids _ _ Hscan).
  - intros -> Hall. step.
    destruct (hd None (streams w)) as [k|]; step; apply scanRows_total.
    + now apply scannable_sorted.
    + rewrite <- (firstn_all (RowSort.sort (tasks w))).
      now apply scannable_sorted.
  - intros -> Hempty. step. rewrite Hempty.
    destruct (hd None (streams w)) as [[|k]|]; reflexivity.
  - destruct (hd false (outage w)); step; [discriminate|].
    destruct (hd None (streams w)); step; apply scanRows_not_null.
  - destruct (hd false (outage w)); step; [reflexivity|].
    destruct (hd None (streams w)); reflexivity.
Qed.

(** C9 fails in the code: the handler never reads the error of the row
    stream.  When the query's round trip succeeds and the stream breaks
    after [k] of the stored rows, the driver holds the error for the
    handler to read, yet a GET on [/tasks] is answered 200 with the
    array of the first [k] tasks only, fewer than are stored, and nothing
    is logged. *)
Theorem list_hides_broken_stream (r : Request) (w : World) (k : nat) :
  Method r = MethodGet -> URLPath r = "/tasks" ->
  hd false (outage w) = false ->
  hd None (streams w) = Some k ->
  (k < List.length (tasks w))%nat ->
  Forall (fun row => exists t, Scan row = Ok t) (tasks w) ->
  (exists rows,
     fst (querySelectAll w) = Ok rows /\ rowsErr rows = Some ErrUpstream)
  /\
  exists ts,
    fst (routes r w)
    = {| status := 200; content_type := Some "application/json";
         body := JsonBody (JArr (map marshal ts)) |}
    /\ map Scan (firstn k (RowSort.sort (tasks w))) = map Ok ts
    /\ (List.length ts < List.length (tasks w))%nat
    /\ logged (snd (routes r w)) = logged w.
Proof.
  intros Hm Hp Hup Hstream Hk Hall. split.
  - run. rewrite Hup. step. rewrite Hstream. eexists. split; reflexivity.
  - rewrite (routes_collection _ _ Hp).
    unfold tasksCollection. rewrite Hm.
    cbn [String.eqb Ascii.eqb Bool.eqb MethodGet].
    run. rewrite Hup. step. rewrite Hstream. step.
    pose proof (scanRows_total _ [] (scannable_sorted _ k Hall)) as H200.
    destruct (scanRows_ok _ _ H200) as (ts & Hscan & Hres).
    exists ts. split; [exact Hres|]. split; [exact Hscan|].
    split; [|reflexivity].
    apply (f_equal (@List.length _)) in Hscan.
    rewrite !length_map, length_firstn in Hscan. rewrite <- Hscan.
    apply Nat.min_lt_iff. now left.
Qed.

Lemma list_hides_broken_stream_witness :
  (exists rows,
     fst (querySelectAll seededBroken) = Ok rows
     /\ rowsErr rows = Some ErrUpstream)
  /\
  exists ts,
    fst (routes {| Method := "GET"; URLPath := "/tasks"; Body := noBody |}
           seededBroken)
    = {| status := 200; content_type := Some "application/json";
         body := JsonBody (JArr (map marshal ts)) |}
    /\ map Scan (firstn 1 (RowSort.sort (tasks seededBroken))) = map Ok ts
    /\ (List.length ts < List.length (tasks seededBroken))%nat
    /\ logged (snd (routes {| Method := "GET"; URLPath := "/tasks";
                              Body := noBody |} seededBroken))
       = logged seededBroken.
Proof.
  apply (list_hides_broken_stream
           {| Method := "GET"; URLPath := "/tasks"; Body := noBody |}
           seededBroken 1 eq_refl eq_refl eq_refl eq_refl).
  - cbn. lia.
  - repeat constructor; eexists; reflexivity.
Defined.

(** On the seed data, with the stream breaking off after the first row,
    the answer is 200 with the first task alone. *)
Lemma list_partial_answer :
  fst (routes {| Method := "GET"; URLPath := "/tasks"; Body := noBody |}
         seededBroken)
  = {| status := 200; content_type := Some "application/json";
       body := JsonBody
                 (JArr [JObj [("id", JNum 1); ("user_id", JNum 1);
                              ("title", JStr "Learn Go basics");
                              ("done", JBool true)]]) |}.
Proof. reflexivity. Qed.

(** * Beyond the contract *)

(** ** Printing an id and parsing it back *)

Lemma digits_of_uint_acc (d : Decimal.uint) (a : positive) :
  digits (NilEmpty.string_of_uint d) (Z.pos a)
  = Some (Z.pos (Pos.of_uint_acc d a)).
Proof.
  revert a. induction d; intros a; cbn [NilEmpty.string_of_uint digits];
    [reflexivity | ..];
    (change (digit _) with (Some 0) || change (digit _) with (Some 1)
     || change (digit _) with (Some 2) || change (digit _) with (Some 3)
     || change (digit _) with (Some 4) || change (digit _) with (Some 5)
     || change (digit _) with (Some 6) || change (digit _) with (Some 7)
     || change (digit _) with (Some 8) || change (digit _) with (Some 9));
    cbv beta iota; cbn [Pos.of_uint_acc]; rewrite <- IHd; f_equal; lia.
Qed.

Lemma digits_of_uint (d : Decimal.uint) :
  digits (NilEmpty.string_of_uint d) 0 = Some (Z.of_N (Pos.of_uint d)).
Proof.
  induction d; cbn [NilEmpty.string_of_uint digits Pos.of_uint];
    [reflexivity | exact IHd | ..];
    (change (digit _) with (Some 1)
     || change (digit _) with (Some 2) || change (digit _) with (Some 3)
     || change (digit _) with (Some 4) || change (digit _) with (Some 5)
     || change (digit _) with (Some 6) || change (digit _) with (Some 7)
     || change (digit _) with (Some 8) || change (digit _) with (Some 9));
    cbv beta iota; cbn [Z.of_N]; rewrite <- digits_of_uint_acc; reflexivity.
Qed.

Lemma Atoi_unsigned (s : string) (v : Z) :
  s <> "" -> digits s 0 = Some v -> fitsInt v = true -> Atoi s = Some v.
Proof.
  destruct s as [|c rest]; [congruence|]. intros _ Hd Hfit.
  unfold Atoi.
  assert (exists d, digit c = Some d) as [d Hc].
  { cbn [digits] in Hd. destruct (digit c); [eauto | discriminate]. }
  destruct (digit_not_sign _ _ Hc) as (-> & -> & _).
  cbv zeta. cbn [orb]. cbv iota. rewrite Hd, Hfit. reflexivity.
Qed.

Lemma Atoi_negative (s : string) (v : Z) :
  s <> "" -> digits s 0 = Some v -> fitsInt (- v) = true ->
  Atoi (String "-" s) = Some (- v).
Proof.
  destruct s as [|c rest]; [congruence|]. intros _ Hd Hfit.
  unfold Atoi. cbn [Ascii.eqb Bool.eqb andb orb]. cbv zeta iota.
  rewrite Hd, Hfit. reflexivity.
Qed.

Lemma to_uint_string (p : positive) :
  NilEmpty.string_of_uint (Pos.to_uint p) <> ""
  /\ NilZero.string_of_uint (Pos.to_uint p)
     = NilEmpty.string_of_uint (Pos.to_uint p)
  /\ digits (NilEmpty.string_of_uint (Pos.to_uint p)) 0 = Some (Z.pos p).
Proof.
  pose proof (DecimalPos.Unsigned.of_to p) as Hp.
  pose proof (digits_of_uint (Pos.to_uint p)) as Hd. rewrite Hp in Hd.
  destruct (Pos.to_uint p); [discriminate Hp | ..];
    (split; [discriminate | split; [reflexivity | exact Hd]]).
Qed.

Lemma Atoi_itoa (n : Z) : minInt <= n <= maxInt -> Atoi (itoa n) = Some n.
Proof.
  intros Hn.
  assert (fitsInt n = true) as Hfit.
  { unfold fitsInt. apply andb_true_iff. rewrite !Z.leb_le. lia. }
  unfold itoa. destruct n as [|p|p]; [reflexivity | ..];
    cbn [Z.to_int NilZero.string_of_int];
    destruct (to_uint_string p) as (Hne & -> & Hd).
  - now apply Atoi_unsigned.
  - now apply (Atoi_negative _ (Z.pos p)).
Qed.

Lemma itoa_no_slash (n : Z) : HasSuffix (itoa n) "/" = false.
Proof.
  unfold itoa. destruct n as [|p|p]; [reflexivity | ..];
    cbn [Z.to_int NilZero.string_of_int];
    destruct (to_uint_string p) as (Hne & -> & Hd).
  - exact (digits_no_slash _ _ _ Hd).
  - rewrite HasSuffix_slash_cons.
    destruct (NilEmpty.string_of_uint (Pos.to_uint p)) eqn:E;
      [congruence | exact (digits_no_slash _ _ _ Hd)].
Qed.

(** X1. Every id the API prints can be used in a path: an id of the range of
    [int], printed in decimal, is parsed back to itself, and so is the
    path [/tasks/{id}], with or without one trailing slash. *)
Theorem printed_id_parses_back (n : Z) :
  minInt <= n <= maxInt ->
  Atoi (itoa n) = Some n
  /\ extractID ("/tasks/" ++ itoa n) "/tasks/" = Some n
  /\ extractID ("/tasks/" ++ itoa n ++ "/") "/tasks/" = Some n.
Proof.
  intros Hn. pose proof (Atoi_itoa n Hn) as H.
  split; [exact H | split].
  - now rewrite extractID_tasks, (TrimSuffix_none _ _ (itoa_no_slash n)).
  - now rewrite extractID_tasks, TrimSuffix_slash.
Qed.

Lemma printed_id_parses_back_witness :
  extractID ("/tasks/" ++ itoa (-42)) "/tasks/" = Some (-42).
Proof.
  apply (printed_id_parses_back (-42)). unfold minInt, maxInt. lia.
Defined.

(** ** Dispatch *)

Lemma routes_create (r : Request) (w : World) :
  Method r = MethodPost -> URLPath r = "/tasks" ->
  routes r w = handleCreateTask r w.
Proof.
  intros Hm Hp. rewrite (routes_collection _ _ Hp).
  unfold tasksCollection. now rewrite Hm.
Qed.

Lemma routes_list (r : Request) (w : World) :
  Method r = MethodGet -> URLPath r = "/tasks" ->
  routes r w = handleListTasks r w.
Proof.
  intros Hm Hp. rewrite (routes_collection _ _ Hp).
  unfold tasksCollection. now rewrite Hm.
Qed.

Lemma routes_get (r : Request) (w : World) (id : Z) :
  Method r = MethodGet -> HasPrefix (URLPath r) "/tasks/" = true ->
  extractID (URLPath r) "/tasks/" = Some id ->
  routes r w = handleGetTask r w.
Proof.
  intros Hm Hp Hid. rewrite (routes_resource _ _ _ Hp Hid).
  unfold tasksResource. now rewrite Hm.
Qed.

Lemma routes_update (r : Request) (w : World) (id : Z) :
  Method r = MethodPut -> HasPrefix (URLPath r) "/tasks/" = true ->
  extractID (URLPath r) "/tasks/" = Some id ->
  routes r w = handleUpdateTask r w.
Proof.
  intros Hm Hp Hid. rewrite (routes_resource _ _ _ Hp Hid).
  unfold tasksResource. now rewrite Hm.
Qed.

Lemma routes_delete (r : Request) (w : World) (id : Z) :
  Method r = MethodDelete -> HasPrefix (URLPath r) "/tasks/" = true ->
  extractID (URLPath r) "/tasks/" = Some id ->
  routes r w = handleDeleteTask r w.
Proof.
  intros Hm Hp Hid. rewrite (routes_resource _ _ _ Hp Hid).
  unfold tasksResource. now rewrite Hm.
Qed.

Lemma find_absent (id : Z) (rs : list Row) :
  existsb (hasID id) rs = false -> find (hasID id) rs = None.
Proof.
  induction rs as [|x rs IH]; simpl; [reflexivity|].
  destruct (hasID id x); [discriminate | exact IH].
Qed.

(** What a 201 tells: the body decoded, and the insert returned the
    record of the answer. *)
Lemma created_inv (r : Request) (w : World) :
  Method r = MethodPost -> URLPath r = "/tasks" ->
  status (fst (routes r w)) = StatusCreated ->
  exists req task,
    asCreateTaskRequest (Body r) = Some req
    /\ queryRowInsert (cr_UserID req) (cr_Title req) w
       = (Ok task, snd (routes r w))
    /\ fst (routes r w) = writeJSON StatusCreated task.
Proof.
  intros Hm Hp. rewrite (routes_create _ _ Hm Hp).
  unfold handleCreateTask.
  destruct (asCreateTaskRequest (Body r)) as [req|]; [|discriminate].
  destruct (String.eqb (cr_Title req) ""); [discriminate|].
  destruct (cr_UserID req =? 0); [discriminate|].
  unfold bind.
  destruct (queryRowInsert _ _ w) as [[task|e] w'] eqn:Hins;
    [|discriminate].
  intros _. exists req, task.
  split; [reflexivity | split; [exact Hins | reflexivity]].
Qed.

(** What a 200 to a PUT tells: the record of the answer is the one now
    stored under the id. *)
Lemma updated_inv (r : Request) (w : World) (id : Z) :
  Method r = MethodPut -> HasPrefix (URLPath r) "/tasks/" = true ->
  extractID (URLPath r) "/tasks/" = Some id ->
  status (fst (routes r w)) = StatusOK ->
  exists row task,
    find (hasID id) (tasks (snd (routes r w))) = Some row
    /\ Scan row = Ok task
    /\ fst (routes r w) = writeJSON StatusOK task.
Proof.
  intros Hm Hp Hid. rewrite (routes_update _ _ _ Hm Hp Hid).
  unfold handleUpdateTask. rewrite Hid.
  destruct (asUpdateTaskRequest (Body r)) as [[[title|] [done|]]|];
    [| | | |discriminate]; cbn [up_Title up_Done]; run;
    repeat match goal with
      | |- context [hd false ?l] => destruct (hd false l); step
      end;
    try discriminate;
    match goal with
    | |- context [find ?f ?l] =>
        destruct (find f l) as [row|] eqn:Hfind; step; [|discriminate];
        destruct (Scan row) as [task|e] eqn:Hscan; step; [|discriminate];
        intros _; exists row, task; repeat split; assumption
    end.
Qed.

(** ** How requests compose *)

(** X2. A task that was just created can be fetched: when a POST is answered
    201, a GET of the id of the answer, its round trip succeeding, is
    answered 200 with the same record. *)
Theorem create_then_get (rc rg : Request) (w : World) (task : Task) :
  Method rc = MethodPost -> URLPath rc = "/tasks" ->
  fst (routes rc w) = writeJSON StatusCreated task ->
  Method rg = MethodGet -> HasPrefix (URLPath rg) "/tasks/" = true ->
  extractID (URLPath rg) "/tasks/" = Some (ID task) ->
  hd false (outage (snd (routes rc w))) = false ->
  fst (routes rg (snd (routes rc w))) = writeJSON StatusOK task.
Proof.
  intros Hm Hp Hresp Hmg Hpg Hid Hup.
  destruct (created_inv rc w Hm Hp) as (req & t & _ & Hins & Ht).
  { now rewrite Hresp. }
  rewrite Hresp in Ht. injection Ht as Hid' Hu Htitle Hdone.
  assert (t = task) as ->.
  { destruct t, task; cbn in *; congruence. }
  destruct (insert_result _ _ _ _ _ Hins) as (Htask & Hfree & Hrows).
  apply (proj2 (get_found_or_absent rg _ (ID task) Hmg Hpg Hid Hup)
           {| r_id := tasks_id_seq w; r_user_id := Some (cr_UserID req);
              r_title := cr_Title req; r_done := Some false |}).
  - rewrite Hrows. apply find_inserted; rewrite Htask; cbn [ID];
      [exact Hfree | apply Z.eqb_refl].
  - rewrite Htask. reflexivity.
Qed.

Lemma create_then_get_witness :
  fst (routes {| Method := "GET"; URLPath := "/tasks/3"; Body := noBody |}
         (snd (routes {| Method := "POST"; URLPath := "/tasks";
                         Body := createBody {| cr_UserID := 1;
                                               cr_Title := "Write spec" |} |}
                 seeded)))
  = writeJSON StatusOK
      {| ID := 3; UserID := 1; Title := "Write spec"; Done := false |}.
Proof.
  apply (create_then_get
    {| Method := "POST"; URLPath := "/tasks";
       Body := createBody {| cr_UserID := 1; cr_Title := "Write spec" |} |}
    {| Method := "GET"; URLPath := "/tasks/3"; Body := noBody |}
    seeded {| ID := 3; UserID := 1; Title := "Write spec"; Done := false |});
    reflexivity.
Defined.

(** What a 204 tells: the delete was carried out, and no row has the id
    any more. *)
Lemma deleted_inv (r : Request) (w : World) (id : Z) :
  Method r = MethodDelete -> HasPrefix (URLPath r) "/tasks/" = true ->
  extractID (URLPath r) "/tasks/" = Some id ->
  status (fst (routes r w)) = StatusNoContent ->
  existsb (hasID id) (tasks w) = true
  /\ tasks (snd (routes r w))
     = filter (fun row => negb (hasID id row)) (tasks w).
Proof.
  intros Hm Hp Hid. rewrite (routes_delete _ _ _ Hm Hp Hid).
  unfold handleDeleteTask. rewrite Hid. run.
  destruct (hd false (outage w)); step; [discriminate|].
  destruct (rowsAffected id (tasks w) =? 0) eqn:Hn; [discriminate|].
  intros _. split; [|reflexivity].
  apply Z.eqb_neq in Hn. rewrite rowsAffected_zero in Hn.
  now destruct (existsb (hasID id) (tasks w)).
Qed.

(** X3. A deleted task is gone: after a DELETE answered 204, a GET of the same
    id is answered 404, whatever the datastore does, and a second DELETE
    whose round trip succeeds is answered 404 too. *)
Theorem delete_then_get (rd r : Request) (w : World) (id : Z) :
  Method rd = MethodDelete -> HasPrefix (URLPath rd) "/tasks/" = true ->
  extractID (URLPath rd) "/tasks/" = Some id ->
  status (fst (routes rd w)) = StatusNoContent ->
  HasPrefix (URLPath r) "/tasks/" = true ->
  extractID (URLPath r) "/tasks/" = Some id ->
  (Method r = MethodGet ->
   fst (routes r (snd (routes rd w)))
   = writeError StatusNotFound (notFoundMsg id))
  /\
  (Method r = MethodDelete ->
   hd false (outage (snd (routes rd w))) = false ->
   fst (routes r (snd (routes rd w)))
   = writeError StatusNotFound (notFoundMsg id)).
Proof.
  intros Hm Hp Hid H204 Hp' Hid'.
  destruct (deleted_inv _ _ _ Hm Hp Hid H204) as [_ Hrows].
  assert (Hgone : existsb (hasID id) (tasks (snd (routes rd w))) = false).
  { rewrite Hrows. apply delete_removes. }
  set (w' := snd (routes rd w)) in *. clearbody w'.
  split.
  - intros Hg. rewrite (routes_get _ _ _ Hg Hp' Hid').
    unfold handleGetTask. rewrite Hid'. run.
    destruct (hd false (outage w')); step; [reflexivity|].
    now rewrite (find_absent _ _ Hgone).
  - intros Hd Hup. rewrite (routes_delete _ _ _ Hd Hp' Hid').
    unfold handleDeleteTask. rewrite Hid'. run. rewrite Hup. step.
    apply rowsAffected_zero in Hgone. now rewrite Hgone.
Qed.

Lemma delete_then_get_witness :
  fst (routes {| Method := "GET"; URLPath := "/tasks/2"; Body := noBody |}
         (snd (routes {| Method := "DELETE"; URLPath := "/tasks/2";
                         Body := noBody |} seeded)))
  = writeError StatusNotFound "task 2 not found".
Proof.
  apply (proj1 (delete_then_get
    {| Method := "DELETE"; URLPath := "/tasks/2"; Body := noBody |}
    {| Method := "GET"; URLPath := "/tasks/2"; Body := noBody |}
    seeded 2 eq_refl eq_refl eq_refl eq_refl eq_refl eq_refl)).
  reflexivity.
Defined.

(** X4. An update that was answered can be read back: when a PUT is answered
    200, a GET of the same id, its round trip succeeding, is answered 200
    with the same record. *)
Theorem update_then_get (ru rg : Request) (w : World) (id : Z) :
  Method ru = MethodPut -> HasPrefix (URLPath ru) "/tasks/" = true ->
  extractID (URLPath ru) "/tasks/" = Some id ->
  status (fst (routes ru w)) = StatusOK ->
  Method rg = MethodGet -> HasPrefix (URLPath rg) "/tasks/" = true ->
  extractID (URLPath rg) "/tasks/" = Some id ->
  hd false (outage (snd (routes ru w))) = false ->
  fst (routes rg (snd (routes ru w))) = fst (routes ru w).
Proof.
  intros Hm Hp Hid H200 Hmg Hpg Hidg Hup.
  destruct (updated_inv _ _ _ Hm Hp Hid H200) as (row & t & Hf & Hs & ->).
  exact (proj2 (get_found_or_absent rg _ id Hmg Hpg Hidg Hup) row t Hf Hs).
Qed.

Lemma update_then_get_witness :
  fst (routes {| Method := "GET"; URLPath := "/tasks/2"; Body := noBody |}
         (snd (routes {| Method := "PUT"; URLPath := "/tasks/2";
                         Body := updateBody {| up_Title := None;
                                               up_Done := Some true |} |}
                 seeded)))
  = writeJSON StatusOK
      {| ID := 2; UserID := 1; Title := "Build REST API"; Done := true |}.
Proof.
  apply (update_then_get
    {| Method := "PUT"; URLPath := "/tasks/2";
       Body := updateBody {| up_Title := None; up_Done := Some true |} |}
    {| Method := "GET"; URLPath := "/tasks/2"; Body := noBody |}
    seeded 2); reflexivity.
Defined.

(** ** Every answer *)

Lemma routes_cases (r : Request) (w : World) :
  routes r w = handleListTasks r w
  \/ routes r w = handleCreateTask r w
  \/ routes r w = handleGetTask r w
  \/ routes r w = handleUpdateTask r w
  \/ routes r w = handleDeleteTask r w
  \/ routes r w = (writeError StatusMethodNotAllowed "method not allowed", w)
  \/ routes r w = (writeJSON StatusOK [("status", "ok")], w)
  \/ routes r w = (notFound, w)
  \/ (redirected r = true
      /\ routes r w = (redirect r (cleanPath (URLPath r)), w)).
Proof.
  unfold routes, tasksCollection, tasksResource, health, ret.
  repeat match goal with
    | |- context [if ?b then _ else _] => destruct b
    end; tauto.
Qed.

Lemma scanRows_cases (rows : list Row) (acc : list Task) :
  (exists ts, scanRows rows (Some acc) = writeJSON StatusOK (Some ts))
  \/ scanRows rows (Some acc)
     = writeError StatusInternalServerError "failed to scan task".
Proof.
  revert acc. induction rows as [|x rows IH]; intros acc; simpl.
  - left. now exists acc.
  - destruct (Scan x); [apply IH | now right].
Qed.

Ltac explode :=
  repeat match goal with
    | |- context [match ?x with _ => _ end] =>
        lazymatch x with
        | context [match _ with _ => _ end] => fail
        | _ => destruct x; step
        end
    end.

(** X5. The answers of the API: the status is one of 200, 201, 204, 307,
    400, 404, 405 and 500; the 307 is the mux's redirect to the canonical
    path, given to the requests it redirects and to no other; an answer of
    400 or more is the mux's plain 404 or has the JSON body
    [{"error": msg}]; an answer below 400 is the redirect, the 204, the
    only answer of a handler without a body, or JSON. *)
Theorem response_shapes (r : Request) (w : World) :
  In (status (fst (routes r w))) [200; 201; 204; 307; 400; 404; 405; 500]
  /\
  (status (fst (routes r w)) = StatusTemporaryRedirect <->
   redirected r = true)
  /\
  (redirected r = true ->
   routes r w = (redirect r (cleanPath (URLPath r)), w))
  /\
  (400 <= status (fst (routes r w)) ->
   fst (routes r w) = notFound
   \/ exists msg,
        fst (routes r w) = writeError (status (fst (routes r w))) msg)
  /\
  (status (fst (routes r w)) < 400 ->
   fst (routes r w) = redirect r (cleanPath (URLPath r))
   \/ fst (routes r w) = writeHeaderOnly StatusNoContent
   \/ (content_type (fst (routes r w)) = Some "application/json"
       /\ exists j, body (fst (routes r w)) = JsonBody j)).
Proof.
  assert (Hshape : forall resp : Response,
    (In (status resp) [200; 201; 204; 400; 404; 405; 500]
     /\ (400 <= status resp ->
         resp = notFound \/ exists m, resp = writeError (status resp) m)
     /\ (status resp < 400 ->
         resp = writeHeaderOnly StatusNoContent
         \/ (content_type resp = Some "application/json"
             /\ exists j, body resp = JsonBody j))) ->
    redirected r = false ->
    In (status resp) [200; 201; 204; 307; 400; 404; 405; 500]
    /\ (status resp = StatusTemporaryRedirect <-> redirected r = true)
    /\ (400 <= status resp ->
        resp = notFound \/ exists m, resp = writeError (status resp) m)
    /\ (status resp < 400 ->
        resp = redirect r (cleanPath (URLPath r))
        \/ resp = writeHeaderOnly StatusNoContent
        \/ (content_type resp = Some "application/json"
            /\ exists j, body resp = JsonBody j))).
  { intros resp (Hst & Hge & Hlt) Hr. unfold StatusTemporaryRedirect.
    split; [|split; [|split]].
    - cbn [In] in *. tauto.
    - rewrite Hr. cbn [In] in Hst. split; [lia | discriminate].
    - exact Hge.
    - intros H. right. now apply Hlt. }
  destruct (redirected r) eqn:Hr.
  - rewrite (routes_redirect _ _ Hr). cbn [fst redirect status].
    unfold StatusTemporaryRedirect.
    split; [|split; [|split; [|split]]].
    + cbn [In]. tauto.
    + tauto.
    + reflexivity.
    + intros; lia.
    + intros _. now left.
  - assert (Hhandled :
      In (status (fst (routes r w))) [200; 201; 204; 400; 404; 405; 500]
      /\ (400 <= status (fst (routes r w)) ->
          fst (routes r w) = notFound
          \/ exists m,
               fst (routes r w) = writeError (status (fst (routes r w))) m)
      /\ (status (fst (routes r w)) < 400 ->
          fst (routes r w) = writeHeaderOnly StatusNoContent
          \/ (content_type (fst (routes r w)) = Some "application/json"
              /\ exists j, body (fst (routes r w)) = JsonBody j))).
    { assert (Herr : forall st msg, In st [400; 404; 405; 500] ->
        let resp := writeError st msg in
        In (status resp) [200; 201; 204; 400; 404; 405; 500]
        /\ (400 <= status resp ->
            resp = notFound \/ exists m, resp = writeError (status resp) m)
        /\ (status resp < 400 ->
            resp = writeHeaderOnly StatusNoContent
            \/ (content_type resp = Some "application/json"
                /\ exists j, body resp = JsonBody j))).
      { intros st msg Hst. cbn [writeError writeJSON status].
        split; [|split].
        - cbn in *. tauto.
        - intros _. right. now exists msg.
        - intros Hlt. exfalso. cbn in Hst. lia. }
      assert (Hok : forall (A : Type) (m : Marshal A) st (a : A),
        In st [200; 201] ->
        let resp := writeJSON st a in
        In (status resp) [200; 201; 204; 400; 404; 405; 500]
        /\ (400 <= status resp ->
            resp = notFound \/ exists m, resp = writeError (status resp) m)
        /\ (status resp < 400 ->
            resp = writeHeaderOnly StatusNoContent
            \/ (content_type resp = Some "application/json"
                /\ exists j, body resp = JsonBody j))).
      { intros A m st a Hst. cbn [writeJSON status content_type body].
        split; [|split].
        - cbn in *. tauto.
        - intros Hge. exfalso. cbn in Hst. lia.
        - intros _. right. split; [reflexivity | eauto]. }
      destruct (routes_cases r w)
        as [H|[H|[H|[H|[H|[H|[H|[H|[Hred H]]]]]]]]]; rewrite H; clear H.
      - unfold handleListTasks. run.
        destruct (hd false (outage w)); step.
        + apply Herr. cbn. tauto.
        + destruct (hd None (streams w)); step;
            match goal with
            | |- context [scanRows ?rows (Some [])] =>
                destruct (scanRows_cases rows []) as [[ts ->]| ->]
            end;
            first [ apply (Hok _ _ 200 (Some ts)); cbn; tauto
                  | apply (Herr 500); cbn; tauto ].
      - unfold handleCreateTask. run. explode;
          first [ apply Herr; cbn; tauto | apply Hok; cbn; tauto ].
      - unfold handleGetTask. run. explode;
          first [ apply Herr; cbn; tauto | apply Hok; cbn; tauto ].
      - unfold handleUpdateTask. run. explode;
          first [ apply Herr; cbn; tauto | apply Hok; cbn; tauto ].
      - unfold handleDeleteTask. run. explode;
          first [ apply Herr; cbn; tauto | idtac ].
        all: unfold StatusNoContent; cbn [status writeHeaderOnly In];
          (split; [tauto
                  | split; [intros; lia | intros; left; reflexivity]]).
      - cbn [fst]. apply Herr. cbn. tauto.
      - cbn [fst]. apply (Hok _ _ 200). cbn. tauto.
      - cbn [fst]. change (status notFound) with 404.
        split; [cbn [In]; tauto
               | split; [intros; left; reflexivity | intros; lia]].
      - congruence. }
    destruct (Hshape _ Hhandled eq_refl) as (H1 & H2 & H3 & H4).
    split; [exact H1 | split; [exact H2 | split; [discriminate|]]].
    split; [exact H3 | exact H4].
Qed.

Lemma response_shapes_witness :
  routes {| Method := "PUT"; URLPath := "/tasks//9"; Body := noBody |} seeded
  = (redirect {| Method := "PUT"; URLPath := "/tasks//9"; Body := noBody |}
       "/tasks/9", seeded).
Proof.
  apply (proj1 (proj2 (proj2 (response_shapes
    {| Method := "PUT"; URLPath := "/tasks//9"; Body := noBody |} seeded)))).
  reflexivity.
Defined.

(** X6. A request refused with 400 or 405 has left the world as it was: no
    statement was sent to the datastore, nothing was logged. *)
Theorem client_errors_touch_nothing (r : Request) (w : World) :
  status (fst (routes r w)) = StatusBadRequest
  \/ status (fst (routes r w)) = StatusMethodNotAllowed ->
  snd (routes r w) = w.
Proof.
  destruct (routes_cases r w) as [H|[H|[H|[H|[H|[H|[H|[H|[_ H]]]]]]]]];
    rewrite H;
    clear H; try reflexivity.
  - unfold handleListTasks. run.
    destruct (hd false (outage w)); step;
      [intros [?|?]; discriminate|].
    destruct (hd None (streams w)); step;
      match goal with
      | |- context [scanRows ?rows (Some [])] =>
          destruct (scanRows_cases rows []) as [[ts ->]| ->]
      end;
      intros [?|?]; discriminate.
  - unfold handleCreateTask. run. explode;
      first [ reflexivity | intros [?|?]; discriminate ].
  - unfold handleGetTask. run. explode;
      first [ reflexivity | intros [?|?]; discriminate ].
  - unfold handleUpdateTask. run. explode;
      first [ reflexivity | intros [?|?]; discriminate ].
  - unfold handleDeleteTask. run. explode;
      first [ reflexivity | intros [?|?]; discriminate ].
Qed.

Lemma client_errors_touch_nothing_witness :
  snd (routes {| Method := "PUT"; URLPath := "/tasks/2"; Body := noBody |}
         seededDown) = seededDown.
Proof.
  apply (client_errors_touch_nothing
    {| Method := "PUT"; URLPath := "/tasks/2"; Body := noBody |} seededDown).
  left. reflexivity.
Defined.

(** X7. The table changes only through a POST on [/tasks] or a PUT or DELETE
    under [/tasks/], and the sequence only through a POST on [/tasks]. *)
Theorem table_changes_only_by_writes (r : Request) (w : World) :
  (tasks (snd (routes r w)) <> tasks w ->
   (Method r = MethodPost /\ URLPath r = "/tasks")
   \/ (HasPrefix (URLPath r) "/tasks/" = true
       /\ (Method r = MethodPut \/ Method r = MethodDelete)))
  /\
  (tasks_id_seq (snd (routes r w)) <> tasks_id_seq w ->
   Method r = MethodPost /\ URLPath r = "/tasks").
Proof.
  assert (Hsame : forall (A : Type) (x : A) (P : Prop), x <> x -> P)
    by (intros A x P H; now destruct H).
  unfold routes. destruct (redirected r).
  { unfold ret. cbn [snd]. split; apply Hsame. }
  unfold tasksCollection, tasksResource, health.
  destruct (String.eqb_spec (URLPath r) "/tasks") as [Hp|Hp].
  - destruct (String.eqb_spec (Method r) MethodGet) as [Hg|Hg].
    + unfold handleListTasks. run.
      destruct (hd false (outage w)); step;
        [|destruct (hd None (streams w)); step]; split; apply Hsame.
    + destruct (String.eqb_spec (Method r) MethodPost) as [Hpost|Hpost];
        [tauto | split; apply Hsame].
  - destruct (HasPrefix (URLPath r) "/tasks/") eqn:Hpre.
    + destruct (String.eqb_spec (Method r) MethodGet) as [Hg|Hg].
      * unfold handleGetTask. run. explode; split; apply Hsame.
      * destruct (String.eqb_spec (Method r) MethodPut) as [Hput|Hput].
        { split; [tauto|].
          unfold handleUpdateTask. run. explode; apply Hsame. }
        destruct (String.eqb_spec (Method r) MethodDelete) as [Hd|Hd].
        { split; [tauto|].
          unfold handleDeleteTask. run. explode; apply Hsame. }
        split; apply Hsame.
    + destruct (String.eqb (URLPath r) "/health"); split; apply Hsame.
Qed.

Lemma table_changes_only_by_writes_witness :
  (Method {| Method := "DELETE"; URLPath := "/tasks/2"; Body := noBody |}
   = MethodPost /\ "/tasks/2" = "/tasks")
  \/ (HasPrefix "/tasks/2" "/tasks/" = true
      /\ ("DELETE" = MethodPut \/ "DELETE" = MethodDelete)).
Proof.
  apply (proj1 (table_changes_only_by_writes
    {| Method := "DELETE"; URLPath := "/tasks/2"; Body := noBody |} seeded)).
  discriminate.
Defined.

(** ** Keys *)

Lemma sequence_step (r : Request) (w : World) :
  tasks_id_seq w <= tasks_id_seq (snd (routes r w)).
Proof.
  destruct (routes_cases r w) as [H|[H|[H|[H|[H|[H|[H|[H|[_ H]]]]]]]]];
    rewrite H;
    clear H; try (cbn; lia).
  - unfold handleListTasks. run. explode; lia.
  - unfold handleCreateTask. run. explode; lia.
  - unfold handleGetTask. run. explode; lia.
  - unfold handleUpdateTask. run. explode; lia.
  - unfold handleDeleteTask. run. explode; lia.
Qed.

Lemma sequence_later (w w' : World) :
  later w w' -> tasks_id_seq w <= tasks_id_seq w'.
Proof.
  induction 1 as [|w' r _ IH]; [lia|].
  pose proof (sequence_step r w'). lia.
Qed.

Lemma created_id (r : Request) (w : World) (task : Task) :
  Method r = MethodPost -> URLPath r = "/tasks" ->
  fst (routes r w) = writeJSON StatusCreated task ->
  ID task = tasks_id_seq w
  /\ tasks_id_seq (snd (routes r w)) = tasks_id_seq w + 1.
Proof.
  intros Hm Hp Hresp.
  destruct (created_inv r w Hm Hp) as (req & t & _ & Hins & Ht).
  { now rewrite Hresp. }
  rewrite Hresp in Ht. injection Ht as Hid _ _ _.
  revert Hins. run. destruct (hd false (outage w)); step; [discriminate|].
  destruct (existsb _ _); [discriminate|].
  intros [= <- <-]. cbn in *. auto.
Qed.

(** X8. An id is never handed out twice: of two POSTs answered 201, the later
    one, whatever was served in between, carries the greater id. *)
Theorem created_ids_increase
  (r1 r2 : Request) (w w2 : World) (t1 t2 : Task) :
  Method r1 = MethodPost -> URLPath r1 = "/tasks" ->
  fst (routes r1 w) = writeJSON StatusCreated t1 ->
  later (snd (routes r1 w)) w2 ->
  Method r2 = MethodPost -> URLPath r2 = "/tasks" ->
  fst (routes r2 w2) = writeJSON StatusCreated t2 ->
  ID t1 < ID t2.
Proof.
  intros Hm1 Hp1 H1 Hlater Hm2 Hp2 H2.
  destruct (created_id _ _ _ Hm1 Hp1 H1) as [-> Hnext].
  destruct (created_id _ _ _ Hm2 Hp2 H2) as [-> _].
  apply sequence_later in Hlater. lia.
Qed.

Lemma created_ids_increase_witness :
  ID {| ID := 3; UserID := 1; Title := "a"; Done := false |}
  < ID {| ID := 4; UserID := 2; Title := "b"; Done := false |}.
Proof.
  apply (created_ids_increase
    {| Method := "POST"; URLPath := "/tasks";
       Body := createBody {| cr_UserID := 1; cr_Title := "a" |} |}
    {| Method := "POST"; URLPath := "/tasks";
       Body := createBody {| cr_UserID := 2; cr_Title := "b" |} |}
    seeded
    (snd (routes {| Method := "DELETE"; URLPath := "/tasks/3";
                    Body := noBody |}
            (snd (routes
               {| Method := "POST"; URLPath := "/tasks";
                  Body := createBody {| cr_UserID := 1;
                                        cr_Title := "a" |} |} seeded)))));
    try reflexivity.
  apply later_step. apply later_now.
Defined.

Lemma setTitle_keeps_ids (title : string) (id : Z) (rs : list Row) :
  map r_id (map (setTitle title id) rs) = map r_id rs.
Proof.
  rewrite map_map. apply map_ext. intros x. unfold setTitle.
  now destruct (hasID id x).
Qed.

Lemma setDone_keeps_ids (done : bool) (id : Z) (rs : list Row) :
  map r_id (map (setDone done id) rs) = map r_id rs.
Proof.
  rewrite map_map. apply map_ext. intros x. unfold setDone.
  now destruct (hasID id x).
Qed.

Lemma keys_after_delete (f : Row -> bool) (s : Z) (rs : list Row) :
  NoDup (map r_id rs) /\ Forall (fun id => id < s) (map r_id rs) ->
  NoDup (map r_id (filter f rs))
  /\ Forall (fun id => id < s) (map r_id (filter f rs)).
Proof.
  induction rs as [|x rs IH]; simpl; [tauto|].
  intros [Hnd Hall]. inversion Hnd as [|? ? Hnotin Hnd']; subst.
  inversion Hall as [|? ? Hx Hall']; subst.
  destruct (IH (conj Hnd' Hall')) as [IH1 IH2].
  destruct (f x); simpl; [|tauto].
  split; [|now constructor].
  constructor; [|exact IH1].
  intros Hin. apply Hnotin.
  apply in_map_iff in Hin as (y & Hy & Hin).
  apply filter_In in Hin as [Hin _].
  apply in_map_iff. now exists y.
Qed.

Lemma keys_after_insert (s : Z) (rs : list Row) (r : Row) :
  r_id r = s ->
  NoDup (map r_id rs) /\ Forall (fun id => id < s) (map r_id rs) ->
  NoDup (map r_id (rs ++ [r]))
  /\ Forall (fun id => id < s + 1) (map r_id (rs ++ [r])).
Proof.
  intros Hr [Hnd Hall]. rewrite map_app. cbn [map]. split.
  - apply NoDup_app; [exact Hnd | repeat constructor; auto |].
    intros a Ha [<-|[]]. rewrite Forall_forall in Hall.
    specialize (Hall _ Ha). lia.
  - apply Forall_app. split.
    + revert Hall. apply Forall_impl. intros; lia.
    + repeat constructor. lia.
Qed.

Lemma keys_after_nextval (s : Z) (ids : list Z) :
  NoDup ids /\ Forall (fun id => id < s) ids ->
  NoDup ids /\ Forall (fun id => id < s + 1) ids.
Proof.
  intros [Hnd Hall]. split; [exact Hnd|].
  revert Hall. apply Forall_impl. intros; lia.
Qed.

(** X9. The keys stay in order: if no two rows share an id and every id is
    below the sequence, it is still so after any request. *)
Theorem keys_preserved (r : Request) (w : World) :
  wellKeyed w -> wellKeyed (snd (routes r w)).
Proof.
  unfold wellKeyed. intros Hk.
  destruct (routes_cases r w) as [H|[H|[H|[H|[H|[H|[H|[H|[_ H]]]]]]]]];
    rewrite H;
    clear H; try exact Hk.
  - unfold handleListTasks. run. explode; exact Hk.
  - unfold handleCreateTask. run. explode;
      first [ exact Hk
            | apply keys_after_nextval; exact Hk
            | apply keys_after_insert; [reflexivity | exact Hk] ].
  - unfold handleGetTask. run. explode; exact Hk.
  - unfold handleUpdateTask. run. explode;
      rewrite ?setDone_keeps_ids, ?setTitle_keeps_ids; exact Hk.
  - unfold handleDeleteTask. run. explode;
      first [ exact Hk | apply keys_after_delete; exact Hk ].
Qed.

Lemma wellKeyed_seeded : wellKeyed seeded.
Proof.
  split; cbn.
  - repeat constructor; cbn; intuition discriminate.
  - repeat constructor.
Defined.

Lemma keys_preserved_witness :
  wellKeyed (snd (routes {| Method := "POST"; URLPath := "/tasks";
                            Body := createBody {| cr_UserID := 1;
                                                  cr_Title := "a" |} |}
                    seeded)).
Proof. exact (keys_preserved _ seeded wellKeyed_seeded). Defined.

(** ** More on single requests *)

(** X11. A PUT on an id no row has changes nothing; when its round trips
    succeed it is answered 404. *)
Theorem update_absent
  (r : Request) (w : World) (id : Z) (req : UpdateTaskRequest) :
  Method r = MethodPut -> HasPrefix (URLPath r) "/tasks/" = true ->
  extractID (URLPath r) "/tasks/" = Some id ->
  asUpdateTaskRequest (Body r) = Some req ->
  existsb (hasID id) (tasks w) = false ->
  tasks (snd (routes r w)) = tasks w
  /\ (outage w = [] ->
      fst (routes r w) = writeError StatusNotFound (notFoundMsg id)).
Proof.
  intros Hm Hp Hid Hb Habs. rewrite (routes_update _ _ _ Hm Hp Hid).
  unfold handleUpdateTask. rewrite Hid, Hb.
  assert (Ht : forall title, map (setTitle title id) (tasks w) = tasks w).
  { intros title. rewrite <- (map_id (tasks w)) at 2. apply map_ext_in.
    intros x Hx. unfold setTitle.
    destruct (hasID id x) eqn:E; [|reflexivity].
    assert (existsb (hasID id) (tasks w) = true)
      by (apply existsb_exists; eauto).
    congruence. }
  assert (Hd : forall done, map (setDone done id) (tasks w) = tasks w).
  { intros done. rewrite <- (map_id (tasks w)) at 2. apply map_ext_in.
    intros x Hx. unfold setDone.
    destruct (hasID id x) eqn:E; [|reflexivity].
    assert (existsb (hasID id) (tasks w) = true)
      by (apply existsb_exists; eauto).
    congruence. }
  pose proof (find_absent _ _ Habs) as Hfind.
  destruct req as [[title|] [done|]]; cbn [up_Title up_Done]; run; split.
  all: try (intros ->;
            repeat (progress (cbn [hd tl]; step; rewrite ?Ht, ?Hd, ?Hfind));
            reflexivity).
  all: repeat match goal with
         | |- context [hd false ?l] => destruct (hd false l); step
         end;
       repeat (progress (rewrite ?Ht, ?Hd, ?Hfind; step)); reflexivity.
Qed.

Lemma update_absent_witness :
  fst (routes {| Method := "PUT"; URLPath := "/tasks/9";
                 Body := updateBody {| up_Title := Some "x";
                                       up_Done := Some true |} |} seeded)
  = writeError StatusNotFound "task 9 not found".
Proof.
  apply (proj2 (update_absent
    {| Method := "PUT"; URLPath := "/tasks/9";
       Body := updateBody {| up_Title := Some "x"; up_Done := Some true |} |}
    seeded 9 {| up_Title := Some "x"; up_Done := Some true |}
    eq_refl eq_refl eq_refl eq_refl eq_refl)).
  reflexivity.
Defined.

(** X12. Several spellings address one task: before the digits of an id a plus
    sign or zeros change nothing. *)
Theorem id_spellings (s : string) (id : Z) :
  s <> "" -> digits s 0 = Some id -> id <= maxInt ->
  extractID ("/tasks/" ++ s) "/tasks/" = Some id
  /\ extractID ("/tasks/+" ++ s) "/tasks/" = Some id
  /\ extractID ("/tasks/0" ++ s) "/tasks/" = Some id.
Proof.
  intros Hne Hd Hmax.
  assert (Hpos : forall t acc v, digits t acc = Some v -> 0 <= acc -> 0 <= v).
  { induction t as [|c t IH]; intros acc v; cbn [digits].
    - intros [= <-]. auto.
    - unfold digit. destruct (_ && _) eqn:E; [|discriminate].
      apply andb_true_iff in E as [E1 E2]. apply Z.leb_le in E1, E2.
      intros H Hacc. apply (IH _ _ H). lia. }
  assert (fitsInt id = true) as Hfit.
  { pose proof (Hpos _ _ _ Hd (Z.le_refl 0)).
    unfold fitsInt, minInt, maxInt in *. apply andb_true_iff.
    rewrite !Z.leb_le. lia. }
  pose proof (digits_no_slash _ _ _ Hd) as Hns.
  pose proof (Atoi_unsigned _ _ Hne Hd Hfit) as Hplain.
  split; [|split].
  - now rewrite extractID_tasks, (TrimSuffix_none _ _ Hns).
  - change ("/tasks/+" ++ s) with ("/tasks/" ++ String "+" s).
    rewrite extractID_tasks, TrimSuffix_none.
    + destruct s as [|c t]; [congruence|]. unfold Atoi.
      cbn [Ascii.eqb Bool.eqb andb orb]. cbv zeta iota.
      now rewrite Hd, Hfit.
    + rewrite HasSuffix_slash_cons. destruct s; [congruence | exact Hns].
  - change ("/tasks/0" ++ s) with ("/tasks/" ++ String "0" s).
    rewrite extractID_tasks, TrimSuffix_none.
    + apply Atoi_unsigned; [discriminate | exact Hd | exact Hfit].
    + rewrite HasSuffix_slash_cons. destruct s; [congruence | exact Hns].
Qed.

Lemma id_spellings_witness :
  extractID ("/tasks/+" ++ "07") "/tasks/" = Some 7.
Proof.
  apply (id_spellings "07" 7);
    [discriminate | reflexivity | unfold maxInt; lia].
Defined.

(** ** The syntax refresher *)

Import SyntaxRefresher.

Lemma minMaxLoop_bounds (nums : list Z) (mn mx : Z) :
  mn <= mx ->
  let '(lo, hi) := minMaxLoop nums mn mx in
  lo <= mn /\ mx <= hi
  /\ (forall n, In n nums -> lo <= n <= hi)
  /\ (lo = mn \/ In lo nums) /\ (hi = mx \/ In hi nums).
Proof.
  revert mn mx. induction nums as [|n rest IH]; intros mn mx Hle;
    cbn [minMaxLoop].
  - repeat split; auto; try lia; contradiction.
  - set (mn' := if n <? mn then n else mn).
    set (mx' := if n >? mx then n else mx).
    assert (Hmn : mn' <= mn /\ mn' <= n /\ (mn' = mn \/ mn' = n)).
    { subst mn'. destruct (Z.ltb_spec n mn); lia. }
    assert (Hmx : mx <= mx' /\ n <= mx' /\ (mx' = mx \/ mx' = n)).
    { subst mx'. rewrite Z.gtb_ltb. destruct (Z.ltb_spec mx n); lia. }
    clearbody mn' mx'.
    specialize (IH mn' mx' ltac:(lia)).
    destruct (minMaxLoop rest mn' mx') as [lo hi].
    destruct IH as (H1 & H2 & H3 & H4 & H5).
    split; [lia | split; [lia | split; [|split]]].
    + intros k [<-|Hk]; [lia | auto].
    + cbn [In]. destruct H4 as [->|]; [|auto]. intuition.
    + cbn [In]. destruct H5 as [->|]; [|auto]. intuition.
Qed.

(** X13. [minMax] panics exactly on the empty slice; on any other it returns
    two elements of the slice that bound every element. *)
Theorem minMax_bounds (nums : list Z) :
  (minMax nums = None <-> nums = [])
  /\
  (forall lo hi, minMax nums = Some (lo, hi) ->
     In lo nums /\ In hi nums /\ forall n, In n nums -> lo <= n <= hi).
Proof.
  split.
  - destruct nums; cbn; split; congruence.
  - intros lo hi. destruct nums as [|n0 rest]; [discriminate|].
    unfold minMax.
    pose proof (minMaxLoop_bounds (n0 :: rest) n0 n0 (Z.le_refl _)) as Hb.
    destruct (minMaxLoop (n0 :: rest) n0 n0) as [lo' hi'].
    intros [= <- <-]. destruct Hb as (_ & _ & H3 & H4 & H5).
    split; [|split; [|exact H3]].
    + destruct H4 as [->|]; [now left | assumption].
    + destruct H5 as [->|]; [now left | assumption].
Qed.

Lemma minMax_bounds_witness :
  In 1 [3; 1; 4; 1; 5; 9; 2; 6] /\ In 9 [3; 1; 4; 1; 5; 9; 2; 6]
  /\ forall n, In n [3; 1; 4; 1; 5; 9; 2; 6] -> 1 <= n <= 9.
Proof.
  exact (proj2 (minMax_bounds [3; 1; 4; 1; 5; 9; 2; 6]) 1 9 eq_refl).
Defined.

Lemma wrapInt_add (a b : Z) : wrapInt (wrapInt a + b) = wrapInt (a + b).
Proof.
  unfold wrapInt.
  replace ((a - minInt) mod 2 ^ 64 + minInt + b - minInt)
    with ((a - minInt) mod 2 ^ 64 + b) by lia.
  rewrite Z.add_mod_idemp_l by (cbn; lia).
  do 2 f_equal. lia.
Qed.

Lemma wrapInt_fits (z : Z) : minInt <= z <= maxInt -> wrapInt z = z.
Proof.
  unfold wrapInt, minInt, maxInt. intros H.
  rewrite Z.mod_small; lia.
Qed.

Lemma wrapInt_range (z : Z) : minInt <= wrapInt z <= maxInt.
Proof.
  unfold wrapInt, minInt, maxInt.
  pose proof (Z.mod_pos_bound (z - - 2 ^ 63) (2 ^ 64) ltac:(lia)). lia.
Qed.

Lemma sumLoop_wraps (nums : list Z) (total : Z) :
  wrapInt (sumLoop nums total) = wrapInt (total + fold_right Z.add 0 nums).
Proof.
  revert total. induction nums as [|n rest IH]; intros total;
    cbn [sumLoop fold_right].
  - now rewrite Z.add_0_r.
  - rewrite IH, wrapInt_add. f_equal. lia.
Qed.

(** X14. [sum] is the true sum reduced into the range of [int]: overflow on the
    way does not matter, and when the true sum fits an [int], [sum] is that
    sum. *)
Theorem sum_wraps (nums : list Z) :
  sum nums = wrapInt (fold_right Z.add 0 nums)
  /\ minInt <= sum nums <= maxInt
  /\ (minInt <= fold_right Z.add 0 nums <= maxInt ->
      sum nums = fold_right Z.add 0 nums).
Proof.
  assert (Hin : minInt <= sum nums <= maxInt).
  { unfold sum. destruct nums as [|n rest]; [cbn; unfold minInt, maxInt; lia|].
    assert (forall l t, l <> [] \/ minInt <= t <= maxInt ->
                        minInt <= sumLoop l t <= maxInt) as Hloop.
    { induction l as [|k l IHl]; intros t Ht; cbn [sumLoop].
      - destruct Ht; [congruence | assumption].
      - apply IHl. right. apply wrapInt_range. }
    apply Hloop. left. discriminate. }
  assert (Heq : sum nums = wrapInt (fold_right Z.add 0 nums)).
  { rewrite <- (wrapInt_fits (sum nums) Hin). unfold sum.
    now rewrite sumLoop_wraps. }
  split; [exact Heq | split; [exact Hin|]].
  intros Hfit. rewrite Heq. now apply wrapInt_fits.
Qed.

Lemma sum_wraps_witness :
  sum [maxInt; 1; -1] = fold_right Z.add 0 [maxInt; 1; -1].
Proof.
  apply (sum_wraps [maxInt; 1; -1]).
  cbn. unfold minInt, maxInt. lia.
Defined.

(** ** The database walk-through *)

Import DatabaseExample.

Ltac runDb :=
  unfold listUsers, getUserByID, createUser, updateUserName,
    deleteUser, createUserWithTask, rollback, queryUsers,
    queryRowUser, insertUserRow, insertTaskRow, execRename,
    execDeleteUser, roundTrip, getUsers, getTasks, getNow,
    putUsers, putTasks, nextUserID, nextTaskID, Printf,
    andThen, unit;
  cbv beta iota zeta;
  cbn [fst snd users tasks users_id_seq tasks_id_seq now
       weather printed].

Ltac stepDb :=
  repeat (progress
    (cbv beta iota zeta;
     cbn [fst snd users tasks users_id_seq tasks_id_seq now
          weather printed u_id negb])).

Ltac break :=
  repeat match goal with
    | H : _ /\ _ |- _ => destruct H
    | H : exists _, _ |- _ => destruct H
    end.

(** ** Reading users *)

Lemma append_all (us : list User) (l : list User) :
  fold_left append us (Some l) = Some (l ++ us)%list.
Proof.
  revert l. induction us as [|u us IH]; intros l; cbn [fold_left append].
  - now rewrite app_nil_r.
  - rewrite IH. now rewrite <- app_assoc.
Qed.

Lemma append_all_nil (us : list User) :
  fold_left append us None
  = match us with [] => None | _ :: _ => Some us end.
Proof.
  destruct us as [|u us]; [reflexivity|].
  cbn [fold_left append]. now rewrite append_all.
Qed.

Lemma scanUsers_value (rows : list UserRow) (e : option PgError)
    (acc s : UserSlice) :
  scanUsers rows e acc = Value s ->
  e = None
  /\ exists us, map ScanUser rows = map Ok us /\ s = fold_left append us acc.
Proof.
  revert acc. induction rows as [|r rows IH]; intros acc; cbn [scanUsers].
  - destruct e; [discriminate|]. intros [= <-]. split; [reflexivity|].
    now exists [].
  - destruct (ScanUser r) as [u|err] eqn:Hr; [|discriminate].
    intros H. destruct (IH _ H) as (He & us & Hus & Hs).
    split; [exact He|]. exists (u :: us). cbn [map fold_left].
    now rewrite Hr, Hus.
Qed.

Lemma scanUsers_total (rows : list UserRow) (acc : UserSlice) :
  Forall (fun r => u_created_at r <> None) rows ->
  exists s, scanUsers rows None acc = Value s.
Proof.
  intros H. revert acc.
  induction H as [|r rows Hr _ IH]; intros acc; cbn [scanUsers]; [eauto|].
  unfold ScanUser. destruct (u_created_at r); [apply IH | congruence].
Qed.

Lemma ScanUser_id (r : UserRow) (u : User) :
  ScanUser r = Ok u -> ID u = u_id r.
Proof.
  unfold ScanUser. destruct (u_created_at r); [|discriminate].
  now intros [= <-].
Qed.

Lemma scanned_user_ids (rows : list UserRow) (us : list User) :
  map ScanUser rows = map Ok us -> map ID us = map u_id rows.
Proof.
  revert us. induction rows as [|x rows IH]; intros [|u us]; simpl;
    try discriminate; [reflexivity|].
  intros [= Hx Hrest]. now rewrite (ScanUser_id _ _ Hx), (IH _ Hrest).
Qed.

Lemma insertByID_perm (r : UserRow) (l : list UserRow) :
  Permutation (r :: l) (insertByID r l).
Proof.
  induction l as [|x l IH]; cbn [insertByID]; [reflexivity|].
  destruct (u_id r <=? u_id x); [reflexivity|].
  rewrite perm_swap. now constructor.
Qed.

Lemma insertByID_sorted (r : UserRow) (l : list UserRow) :
  StronglySorted Z.le (map u_id l) ->
  StronglySorted Z.le (map u_id (insertByID r l)).
Proof.
  induction l as [|x l IH]; cbn [insertByID map]; intros Hs.
  - repeat constructor.
  - inversion Hs as [|? ? Hl Hx]; subst.
    destruct (Z.leb_spec (u_id r) (u_id x)); cbn [map].
    + constructor; [exact Hs|]. constructor; [lia|].
      revert Hx. apply Forall_impl. intros; lia.
    + constructor; [now apply IH|].
      assert (Hp : Permutation (u_id r :: map u_id l)
                     (map u_id (insertByID r l))).
      { change (u_id r :: map u_id l) with (map u_id (r :: l)).
        apply Permutation_map, insertByID_perm. }
      eapply Permutation_Forall; [exact Hp|].
      constructor; [lia | exact Hx].
Qed.

Lemma users_ORDER_BY_id (rs : list UserRow) :
  StronglySorted Z.le (map u_id (orderByID rs))
  /\ Permutation rs (orderByID rs).
Proof.
  induction rs as [|r rs [IHs IHp]]; cbn [orderByID fold_right].
  - split; constructor.
  - split; [now apply insertByID_sorted|].
    rewrite <- insertByID_perm. now constructor.
Qed.

(** X15. [listUsers] returns all the users or an error, never a part of them:
    a list that is returned holds every stored user once, in ascending
    order of id, even when the rows of the query break off on the way;
    for an empty table it is the nil slice.  When the query succeeds and
    no [created_at] is NULL, a list is returned. *)
Theorem listUsers_complete (db : Db) :
  (forall s, fst (listUsers db) = Value s ->
     exists us,
       Permutation (map ScanUser (users db)) (map Ok us)
       /\ StronglySorted Z.le (map ID us)
       /\ s = match us with [] => None | _ :: _ => Some us end)
  /\
  (hd Succeeds (weather db) = Succeeds ->
   Forall (fun r => u_created_at r <> None) (users db) ->
   exists s, fst (listUsers db) = Value s)
  /\
  (forall n, hd Succeeds (weather db) = Breaks n ->
     exists e, fst (listUsers db) = Error e).
Proof.
  destruct (users_ORDER_BY_id (users db)) as [Hsorted Hperm].
  runDb. split; [|split].
  - intros s. destruct (hd Succeeds (weather db)); stepDb;
      [|discriminate|]; cbn [delivered rowsErr]; intros H;
      apply scanUsers_value in H as (He & us & Hus & ->);
      [|discriminate].
    exists us. split; [|split].
    + rewrite <- Hus. now apply Permutation_map.
    + now rewrite (scanned_user_ids _ _ Hus).
    + apply append_all_nil.
  - intros -> Hall. stepDb. cbn [delivered rowsErr].
    apply scanUsers_total. apply Forall_forall. intros r Hin.
    rewrite Forall_forall in Hall. apply Hall.
    eapply Permutation_in; [apply Permutation_sym, Hperm | exact Hin].
  - intros n ->. stepDb. cbn [delivered rowsErr].
    destruct (scanUsers _ _ _) as [s|e] eqn:H; [|eauto].
    apply scanUsers_value in H as [He _]. discriminate.
Qed.

Lemma listUsers_complete_witness :
  exists s, fst (listUsers sampleDb) = Value s.
Proof.
  apply (proj1 (proj2 (listUsers_complete sampleDb))).
  - reflexivity.
  - repeat constructor; discriminate.
Defined.

Lemma find_isUser_none (id : Z) (us : list UserRow) :
  find (isUser id) us = None <-> existsb (isUser id) us = false.
Proof.
  induction us as [|x us IH]; simpl; [tauto|].
  destruct (isUser id x); simpl; [split; discriminate | exact IH].
Qed.

(** X16. [getUserByID] tells a missing user from a failed lookup: the error
    ["user {id} not found"] is returned exactly when the lookup was
    carried out and no row has the id; a failed round trip gives an error
    that wraps its cause; and a user that is returned is the stored row of
    that id. *)
Theorem getUserByID_outcomes (id : Z) (db : Db) :
  (fst (getUserByID id db) = Error (Plain ("user " ++ itoa id ++ " not found"))
   <-> failed (hd Succeeds (weather db)) = false
       /\ existsb (isUser id) (users db) = false)
  /\
  (failed (hd Succeeds (weather db)) = true ->
   fst (getUserByID id db) = Error (Wrap ("query user " ++ itoa id) Upstream))
  /\
  (forall u, fst (getUserByID id db) = Value u <->
     failed (hd Succeeds (weather db)) = false
     /\ exists r, find (isUser id) (users db) = Some r /\ ScanUser r = Ok u)
  /\ users (snd (getUserByID id db)) = users db
  /\ tasks (snd (getUserByID id db)) = tasks db.
Proof.
  runDb. destruct (failed (hd Succeeds (weather db))); stepDb.
  - repeat split; intros; break; try discriminate; try congruence.
  - destruct (find (isUser id) (users db)) as [r|] eqn:Hfind; stepDb.
    + assert (existsb (isUser id) (users db) = true) as Hex.
      { destruct (existsb _ _) eqn:E; [reflexivity|].
        apply find_isUser_none in E. congruence. }
      rewrite Hex.
      destruct (ScanUser r) as [u|e] eqn:Hscan; stepDb.
      * repeat split; intros; break; try discriminate; try congruence.
        exists r. split; congruence.
      * assert (e = ScanNull) as ->.
        { unfold ScanUser in Hscan. destruct (u_created_at r);
            [discriminate | now injection Hscan]. }
        repeat split; intros; break; try discriminate; try congruence.
    + apply find_isUser_none in Hfind. rewrite Hfind.
      repeat split; intros; break; try discriminate; try congruence.
Qed.

Lemma getUserByID_outcomes_witness :
  fst (getUserByID 9 sampleDb) = Error (Plain "user 9 not found").
Proof.
  apply (proj1 (getUserByID_outcomes 9 sampleDb)). split; reflexivity.
Defined.

(** ** Changing users *)

Lemma rename_absent (newName : string) (id : Z) (us : list UserRow) :
  existsb (isUser id) us = false -> map (rename newName id) us = us.
Proof.
  induction us as [|x us IH]; simpl; [reflexivity|].
  unfold rename at 1. destruct (isUser id x); simpl; [discriminate|].
  intros H. now rewrite IH.
Qed.

Lemma countUsers_zero (id : Z) (us : list UserRow) :
  (countUsers id us =? 0) = negb (existsb (isUser id) us).
Proof.
  unfold countUsers. induction us as [|x us IH]; simpl; [reflexivity|].
  destruct (isUser id x); simpl; [reflexivity | exact IH].
Qed.

Lemma user_is_there (id : Z) (us : list UserRow) (r : UserRow) :
  u_id r = id -> existsb (isUser id) (us ++ [r]) = true.
Proof.
  intros Hr. rewrite existsb_app. cbn. unfold isUser at 2.
  rewrite Hr, Z.eqb_refl. now rewrite orb_true_r.
Qed.

(** The tables after [createUser]. *)
Lemma createUser_tables (name email : string) (db : Db) :
  let ok := negb (failed (hd Succeeds (weather db)))
            && negb (existsb (isUser (users_id_seq db)) (users db)
                     || emailTaken email (users db)) in
  users (snd (createUser name email db))
  = (if ok then (users db ++ [newUserRow name email db])%list else users db)
  /\ tasks (snd (createUser name email db)) = tasks db
  /\ fst (createUser name email db)
     = (if ok
        then Value {| ID := users_id_seq db; Name := name; Email := email;
                      CreatedAt := now db |}
        else Error (Wrap "create user"
                      (if failed (hd Succeeds (weather db)) then Upstream
                       else UniqueViolation))).
Proof.
  runDb. destruct (failed (hd Succeeds (weather db))); stepDb;
    [repeat split|].
  destruct (existsb _ _ || emailTaken _ _); stepDb; repeat split.
Qed.

(** The tables after [updateUserName]. *)
Lemma updateUserName_tables (id : Z) (newName : string) (db : Db) :
  users (snd (updateUserName id newName db))
  = (if failed (hd Succeeds (weather db)) then users db
     else map (rename newName id) (users db))
  /\ tasks (snd (updateUserName id newName db)) = tasks db
  /\ fst (updateUserName id newName db)
     = (if failed (hd Succeeds (weather db))
        then Some (Wrap "update user" Upstream)
        else if existsb (isUser id) (users db) then None
        else Some (Plain ("user " ++ itoa id ++ " not found"))).
Proof.
  runDb. destruct (failed (hd Succeeds (weather db))); stepDb;
    [repeat split|].
  rewrite countUsers_zero.
  destruct (existsb (isUser id) (users db)); stepDb; repeat split.
Qed.

(** The tables after [deleteUser]. *)
Lemma deleteUser_tables (id : Z) (db : Db) :
  users (snd (deleteUser id db))
  = (if failed (hd Succeeds (weather db)) then users db
     else filter (fun r => negb (isUser id r)) (users db))
  /\ tasks (snd (deleteUser id db))
     = (if failed (hd Succeeds (weather db)) then tasks db
        else if existsb (isUser id) (users db)
        then filter (fun t => negb (ownedBy id t)) (tasks db)
        else tasks db)
  /\ fst (deleteUser id db)
     = (if failed (hd Succeeds (weather db))
        then Some (Wrap "delete user" Upstream) else None).
Proof.
  runDb. destruct (failed (hd Succeeds (weather db))); stepDb;
    repeat split.
Qed.

(** The tables after [createUserWithTask]. *)
Lemma createUserWithTask_tables (name email title : string) (db : Db) :
  let w := weather db in
  let ok :=
    negb (failed (hd Succeeds w))
    && negb (failed (hd Succeeds (tl w)))
    && negb (existsb (isUser (users_id_seq db)) (users db)
             || emailTaken email (users db))
    && negb (failed (hd Succeeds (tl (tl w))))
    && negb (existsb (fun t => t_id t =? tasks_id_seq db) (tasks db))
    && negb (failed (hd Succeeds (tl (tl (tl w))))) in
  users (snd (createUserWithTask name email title db))
  = (if ok then (users db ++ [newUserRow name email db])%list else users db)
  /\ tasks (snd (createUserWithTask name email title db))
     = (if ok then (tasks db ++ [newTaskRow title db])%list else tasks db)
  /\ (fst (createUserWithTask name email title db) = None <-> ok = true).
Proof.
  cbv zeta. runDb.
  destruct (failed (hd Succeeds (weather db))); stepDb;
    [cbn [negb andb]; repeat split; discriminate|].
  destruct (failed (hd Succeeds (tl (weather db)))); stepDb;
    [cbn [negb andb]; repeat split; discriminate|].
  destruct (existsb (isUser _) (users db) || emailTaken _ _); stepDb;
    [cbn [negb andb]; repeat split; discriminate|].
  destruct (failed (hd Succeeds (tl (tl (weather db))))); stepDb;
    [cbn [negb andb]; repeat split; discriminate|].
  rewrite user_is_there by reflexivity. stepDb.
  destruct (existsb _ (tasks db)); stepDb;
    [cbn [negb andb]; repeat split; discriminate|].
  destruct (failed (hd Succeeds (tl (tl (tl (weather db)))))); stepDb;
    cbn [negb andb]; repeat split; discriminate.
Qed.

(** X17. [createUser] keeps emails apart: with an email that a stored user
    has, it returns an error and stores nothing; a user that is returned
    carries the id of the sequence and the name and email given, its
    email was free, and its row is the one row added. *)
Theorem createUser_effect (name email : string) (db : Db) :
  (emailTaken email (users db) = true ->
   (exists e, fst (createUser name email db) = Error e)
   /\ users (snd (createUser name email db)) = users db)
  /\
  (forall u, fst (createUser name email db) = Value u ->
     u = {| ID := users_id_seq db; Name := name; Email := email;
            CreatedAt := now db |}
     /\ emailTaken email (users db) = false
     /\ users (snd (createUser name email db))
        = (users db ++ [newUserRow name email db])%list)
  /\
  (forall e, fst (createUser name email db) = Error e ->
     users (snd (createUser name email db)) = users db)
  /\ tasks (snd (createUser name email db)) = tasks db.
Proof.
  destruct (createUser_tables name email db) as (Hu & Ht & Hr).
  cbv zeta in Hu, Hr. rewrite Hu, Ht, Hr. clear Hu Ht Hr.
  destruct (failed (hd Succeeds (weather db))); cbn [negb andb].
  - repeat split; intros; try discriminate; eauto.
  - destruct (existsb _ _) eqn:Hid; cbn [orb negb].
    + repeat split; intros; try discriminate; eauto.
    + destruct (emailTaken email (users db)); cbn [negb];
        repeat split; intros; try discriminate; try congruence; eauto.
Qed.

Lemma createUser_effect_witness :
  (exists e, fst (createUser "Al" "alice@example.com" sampleDb) = Error e)
  /\ users (snd (createUser "Al" "alice@example.com" sampleDb))
     = users sampleDb.
Proof.
  apply (proj1 (createUser_effect "Al" "alice@example.com" sampleDb)).
  reflexivity.
Defined.

(** X18. [updateUserName] returns ["user {id} not found"] exactly when the
    update was carried out and no user has the id; when it returns nil, a
    user has the id and the users are the old ones with that name set;
    whatever it returns, ids, emails and tasks are as before. *)
Theorem updateUserName_effect (id : Z) (newName : string) (db : Db) :
  (fst (updateUserName id newName db)
   = Some (Plain ("user " ++ itoa id ++ " not found"))
   <-> failed (hd Succeeds (weather db)) = false
       /\ existsb (isUser id) (users db) = false)
  /\
  (fst (updateUserName id newName db) = None ->
   existsb (isUser id) (users db) = true
   /\ users (snd (updateUserName id newName db))
      = map (rename newName id) (users db))
  /\
  (fst (updateUserName id newName db) <> None ->
   users (snd (updateUserName id newName db)) = users db)
  /\ map u_id (users (snd (updateUserName id newName db)))
     = map u_id (users db)
  /\ map u_email (users (snd (updateUserName id newName db)))
     = map u_email (users db)
  /\ tasks (snd (updateUserName id newName db)) = tasks db.
Proof.
  destruct (updateUserName_tables id newName db) as (Hu & Ht & Hr).
  rewrite Hu, Ht, Hr. clear Hu Ht Hr.
  assert (Hids : map u_id (map (rename newName id) (users db))
                 = map u_id (users db)).
  { rewrite map_map. apply map_ext. intros x. unfold rename.
    now destruct (isUser id x). }
  assert (Hemails : map u_email (map (rename newName id) (users db))
                    = map u_email (users db)).
  { rewrite map_map. apply map_ext. intros x. unfold rename.
    now destruct (isUser id x). }
  destruct (failed (hd Succeeds (weather db))).
  - repeat split; intros; break; try discriminate; congruence.
  - destruct (existsb (isUser id) (users db)) eqn:Hex.
    + repeat split; intros; break; try discriminate; try congruence.
    + repeat split; intros; break; try discriminate; try congruence;
        now apply rename_absent.
Qed.

Lemma updateUserName_effect_witness :
  existsb (isUser 2) (users sampleDb) = true
  /\ users (snd (updateUserName 2 "Robert" sampleDb))
     = map (rename "Robert" 2) (users sampleDb).
Proof.
  apply (proj1 (proj2 (updateUserName_effect 2 "Robert" sampleDb))).
  reflexivity.
Defined.

Lemma removed_user (id : Z) (us : list UserRow) :
  existsb (isUser id) (filter (fun r => negb (isUser id r)) us) = false.
Proof.
  induction us as [|x us IH]; simpl; [reflexivity|].
  destruct (isUser id x) eqn:E; simpl; [exact IH|]. now rewrite E.
Qed.

Lemma removed_tasks (id : Z) (ts : list TaskRow) :
  existsb (ownedBy id) (filter (fun t => negb (ownedBy id t)) ts) = false.
Proof.
  induction ts as [|x ts IH]; simpl; [reflexivity|].
  destruct (ownedBy id x) eqn:E; simpl; [exact IH|]. now rewrite E.
Qed.

Lemma absent_user_kept (id : Z) (us : list UserRow) :
  existsb (isUser id) us = false ->
  filter (fun r => negb (isUser id r)) us = us.
Proof.
  induction us as [|x us IH]; simpl; [reflexivity|].
  destruct (isUser id x); simpl; [discriminate|].
  intros H. now rewrite IH.
Qed.

(** X19. [deleteUser] does not report a missing user: it returns nil whenever
    its round trip succeeds.  After it returned nil no user has the id;
    if one had, no task names the id any more, the other users and tasks
    being kept; if none had, both tables are as before.  After an error
    they are as before too. *)
Theorem deleteUser_effect (id : Z) (db : Db) :
  (fst (deleteUser id db) = None
   <-> failed (hd Succeeds (weather db)) = false)
  /\
  (fst (deleteUser id db) = None ->
   existsb (isUser id) (users (snd (deleteUser id db))) = false
   /\ users (snd (deleteUser id db))
      = filter (fun r => negb (isUser id r)) (users db)
   /\ (existsb (isUser id) (users db) = true ->
       existsb (ownedBy id) (tasks (snd (deleteUser id db))) = false
       /\ tasks (snd (deleteUser id db))
          = filter (fun t => negb (ownedBy id t)) (tasks db))
   /\ (existsb (isUser id) (users db) = false ->
       users (snd (deleteUser id db)) = users db
       /\ tasks (snd (deleteUser id db)) = tasks db))
  /\
  (fst (deleteUser id db) <> None ->
   users (snd (deleteUser id db)) = users db
   /\ tasks (snd (deleteUser id db)) = tasks db).
Proof.
  destruct (deleteUser_tables id db) as (Hu & Ht & Hr).
  rewrite Hu, Ht, Hr. clear Hu Ht Hr.
  destruct (failed (hd Succeeds (weather db))).
  - repeat split; intros; try discriminate; congruence.
  - split; [tauto|]. split; [|congruence]. intros _.
    split; [apply removed_user|]. split; [reflexivity|]. split.
    + intros ->. split; [apply removed_tasks | reflexivity].
    + intros Hno. rewrite Hno. split; [|reflexivity].
      now apply absent_user_kept.
Qed.

Lemma deleteUser_effect_witness :
  fst (deleteUser 9 sampleDb) = None.
Proof.
  apply (proj1 (deleteUser_effect 9 sampleDb)). reflexivity.
Defined.

(** X20. [createUserWithTask] is all or nothing: after an error, whichever
    step failed, both tables are as they were; after nil, exactly one
    user and one task were added, the task naming the new user. *)
Theorem createUserWithTask_atomic (name email title : string) (db : Db) :
  (forall e, fst (createUserWithTask name email title db) = Some e ->
     users (snd (createUserWithTask name email title db)) = users db
     /\ tasks (snd (createUserWithTask name email title db)) = tasks db)
  /\
  (fst (createUserWithTask name email title db) = None ->
   users (snd (createUserWithTask name email title db))
   = (users db ++ [newUserRow name email db])%list
   /\ tasks (snd (createUserWithTask name email title db))
      = (tasks db ++ [newTaskRow title db])%list
   /\ t_user_id (newTaskRow title db) = Some (u_id (newUserRow name email db))
   /\ emailTaken email (users db) = false)
  /\
  (weather db = [] ->
   existsb (isUser (users_id_seq db)) (users db) = false ->
   emailTaken email (users db) = false ->
   existsb (fun t => t_id t =? tasks_id_seq db) (tasks db) = false ->
   fst (createUserWithTask name email title db) = None).
Proof.
  destruct (createUserWithTask_tables name email title db) as (Hu & Ht & Hr).
  cbv zeta in Hu, Ht, Hr. rewrite Hu, Ht. clear Hu Ht.
  match type of Hr with _ <-> ?b = true => set (ok := b) in * end.
  split; [|split].
  - intros e He. destruct ok; [|tauto].
    destruct Hr as [_ Hr]. rewrite Hr in He by reflexivity. discriminate.
  - intros Hnil. apply Hr in Hnil. rewrite Hnil.
    repeat split.
    subst ok. repeat (apply andb_true_iff in Hnil as [Hnil ?]).
    match goal with
    | H : negb (_ || emailTaken _ _) = true |- _ =>
        apply negb_true_iff, orb_false_iff in H as [_ H]; exact H
    end.
  - intros Hw Hid Hemail Htid. apply Hr. subst ok.
    rewrite Hw, Hid, Hemail, Htid. reflexivity.
Qed.

Lemma createUserWithTask_atomic_witness :
  fst (createUserWithTask "Eve" "eve@example.com" "Join the team" sampleDb)
  = None.
Proof.
  apply (proj2 (proj2 (createUserWithTask_atomic
    "Eve" "eve@example.com" "Join the team" sampleDb))); reflexivity.
Defined.

(** ** The constraints of the schema *)

Lemma not_in_ids (id : Z) (us : list UserRow) :
  existsb (isUser id) us = false -> ~ In id (map u_id us).
Proof.
  intros H Hin. apply in_map_iff in Hin as (r & Hr & Hin).
  assert (existsb (isUser id) us = true).
  { apply existsb_exists. exists r. split; [exact Hin|].
    unfold isUser. now apply Z.eqb_eq. }
  congruence.
Qed.

Lemma not_in_emails (email : string) (us : list UserRow) :
  emailTaken email us = false -> ~ In email (map u_email us).
Proof.
  intros H Hin. apply in_map_iff in Hin as (r & Hr & Hin).
  assert (emailTaken email us = true).
  { apply existsb_exists. exists r. split; [exact Hin|].
    now apply String.eqb_eq. }
  congruence.
Qed.

Lemma NoDup_snoc {A} (l : list A) (a : A) :
  NoDup l -> ~ In a l -> NoDup (l ++ [a]).
Proof.
  intros Hl Ha. apply NoDup_app; [exact Hl | repeat constructor; auto |].
  intros x Hx [<-|[]]. contradiction.
Qed.

Lemma kept_rows_distinct {R K : Type} (key : R -> K) (keep : R -> bool)
    (rows : list R) (Hd : NoDup (map key rows)) :
  NoDup (map key (filter keep rows)).
Proof.
  induction rows as [|x rows IH]; simpl in *; [exact Hd|].
  inversion Hd as [|? ? Hfresh Hrest]; subst.
  destruct (keep x); simpl; [|now apply IH].
  constructor; [|now apply IH].
  intros Hin. apply Hfresh.
  apply in_map_iff in Hin as (y & Hy & Hin).
  apply filter_In in Hin as [Hin _].
  apply in_map_iff. now exists y.
Qed.

Lemma consistent_tables (db db' : Db) :
  users db' = users db -> tasks db' = tasks db ->
  consistent db -> consistent db'.
Proof. unfold consistent. now intros -> ->. Qed.

Lemma consistent_new_user (db db' : Db) (r : UserRow) :
  users db' = (users db ++ [r])%list -> tasks db' = tasks db ->
  existsb (isUser (u_id r)) (users db) = false ->
  emailTaken (u_email r) (users db) = false ->
  consistent db -> consistent db'.
Proof.
  unfold consistent. intros -> -> Hid Hemail (Hids & Hemails & Href).
  rewrite !map_app. cbn [map]. split; [|split].
  - apply NoDup_snoc; [exact Hids | now apply not_in_ids].
  - apply NoDup_snoc; [exact Hemails | now apply not_in_emails].
  - intros t u Ht Hu. destruct (Href t u Ht Hu) as (x & Hx & Hxu).
    exists x. split; [apply in_or_app; now left | exact Hxu].
Qed.

(** X21. The four functions that write keep the constraints of the schema: if
    no two users share an id or an email and every task that names a user
    names a stored one, it is still so after [createUser],
    [updateUserName], [deleteUser] and [createUserWithTask], whatever
    they return. *)
Theorem consistent_preserved (db : Db) :
  consistent db ->
  (forall name email, consistent (snd (createUser name email db)))
  /\ (forall id newName, consistent (snd (updateUserName id newName db)))
  /\ (forall id, consistent (snd (deleteUser id db)))
  /\ (forall name email title,
        consistent (snd (createUserWithTask name email title db))).
Proof.
  intros Hc. split; [|split; [|split]].
  - intros name email.
    destruct (createUser_tables name email db) as (Hu & Ht & _).
    cbv zeta in Hu.
    destruct (failed (hd Succeeds (weather db))); cbn [negb andb] in Hu;
      [now apply (consistent_tables db)|].
    destruct (existsb _ _) eqn:Hid; cbn [orb negb] in Hu;
      [now apply (consistent_tables db)|].
    destruct (emailTaken _ _) eqn:Hemail; cbn [negb] in Hu;
      [now apply (consistent_tables db)|].
    now apply (consistent_new_user db _ (newUserRow name email db)).
  - intros id newName.
    destruct (updateUserName_tables id newName db) as (Hu & Ht & _).
    destruct (failed (hd Succeeds (weather db)));
      [now apply (consistent_tables db)|].
    destruct Hc as (Hids & Hemails & Href).
    unfold consistent. rewrite Hu, Ht. rewrite !map_map.
    split; [|split].
    + erewrite map_ext; [exact Hids|].
      intros x. unfold rename. now destruct (isUser id x).
    + erewrite map_ext; [exact Hemails|].
      intros x. unfold rename. now destruct (isUser id x).
    + intros t u Hin Hu'. destruct (Href t u Hin Hu') as (x & Hx & Hxu).
      exists (rename newName id x). split; [now apply in_map|].
      unfold rename. now destruct (isUser id x).
  - intros id.
    destruct (deleteUser_tables id db) as (Hu & Ht & _).
    destruct (failed (hd Succeeds (weather db)));
      [now apply (consistent_tables db)|].
    destruct Hc as (Hids & Hemails & Href).
    unfold consistent. rewrite Hu, Ht.
    split; [now apply kept_rows_distinct|].
    split; [now apply kept_rows_distinct|].
    intros t u Hin Hu'.
    assert (In t (tasks db) /\ u <> id) as [Hin' Hne].
    { destruct (existsb (isUser id) (users db)) eqn:Hex.
      - apply filter_In in Hin as [Hin Hown]. split; [exact Hin|].
        unfold ownedBy in Hown. rewrite Hu' in Hown.
        apply negb_true_iff, Z.eqb_neq in Hown. exact Hown.
      - split; [exact Hin|]. intros ->.
        destruct (Href t id Hin Hu') as (x & Hx & Hxu).
        assert (existsb (isUser id) (users db) = true).
        { apply existsb_exists. exists x. split; [exact Hx|].
          unfold isUser. now apply Z.eqb_eq. }
        congruence. }
    destruct (Href t u Hin' Hu') as (x & Hx & Hxu).
    exists x. split; [|exact Hxu].
    apply filter_In. split; [exact Hx|].
    unfold isUser. apply negb_true_iff, Z.eqb_neq. congruence.
  - intros name email title.
    destruct (createUserWithTask_tables name email title db)
      as (Hu & Ht & _).
    cbv zeta in Hu, Ht.
    match type of Hu with _ = if ?b then _ else _ => destruct b eqn:Hok end;
      [|now apply (consistent_tables db)].
    repeat (apply andb_true_iff in Hok as [Hok ?]).
    match goal with
    | H : negb (_ || emailTaken _ _) = true |- _ =>
        apply negb_true_iff, orb_false_iff in H as [Hid Hemail]
    end.
    assert (Hmid : consistent
              {| users := (users db ++ [newUserRow name email db])%list;
                 tasks := tasks db; users_id_seq := 0; tasks_id_seq := 0;
                 now := 0; weather := []; printed := [] |}).
    { now apply (consistent_new_user db _ (newUserRow name email db)). }
    destruct Hmid as (Hids & Hemails & Href).
    unfold consistent. rewrite Hu, Ht. cbn [users tasks] in *.
    split; [exact Hids | split; [exact Hemails|]].
    intros t u Hin Hu'. apply in_app_or in Hin as [Hin|[<-|[]]].
    + exact (Href t u Hin Hu').
    + exists (newUserRow name email db). split.
      * apply in_or_app. right. now left.
      * cbn in Hu'. now injection Hu'.
Qed.

Lemma consistent_sampleDb : consistent sampleDb.
Proof.
  split; [|split]; cbn.
  - repeat constructor; cbn; intuition discriminate.
  - repeat constructor; cbn; intuition discriminate.
  - intros t u [<-|[<-|[]]] [= <-]; eexists; split;
      [left; reflexivity | reflexivity | right; left; reflexivity
      | reflexivity].
Defined.

Lemma consistent_preserved_witness :
  consistent (snd (deleteUser 1 sampleDb)).
Proof.
  exact (proj1 (proj2 (proj2 (consistent_preserved sampleDb
                                consistent_sampleDb))) 1).
Defined.
